(** * dxtbx: the ExperimentList scripting interface

    A shallow embedding of [model/boost_python/experiment_list.cc], the
    Boost.Python wrapper of [dxtbx::model::ExperimentList], together with
    the core container operations the wrapper calls.  The wrapper's own
    functions are translated from the source; the members of the core
    class, declared in [dxtbx/model/experiment_list.h], are modelled from
    the specification and marked as such. *)

From Stdlib Require Import ZArith Lia.
From stdpp Require Import base option list gmap strings.

Set Default Proof Using "Type".
Local Open Scope Z_scope.

(** ** Model instances and the handles that share them *)

(** Modelled from the spec: the five typed model kinds of an
    Experiment. *)
Inductive Kind := Beam | Detector | Goniometer | Scan | Crystal.

(** Modelled from the spec: a model instance living on the heap.
    [address] is where it lives (its identity), [parameters] is what it
    describes (its value). *)
Record Model := { address : nat; parameters : list Z }.

(** [boost::shared_ptr<K>]: [None] is the empty handle. *)
Definition shared_ptr := option Model.

(** [operator==] on [boost::shared_ptr]: equality of the stored
    pointers, whatever the pointees hold. *)
Definition same_instance (p q : shared_ptr) : bool :=
  match p, q with
  | None, None => true
  | Some a, Some b => Nat.eqb (address a) (address b)
  | _, _ => false
  end.

(** Structural equality of the pointees; only used to talk about
    instances that are equal in value and yet distinct. *)
Definition value_equal (p q : shared_ptr) : bool :=
  match p, q with
  | None, None => true
  | Some a, Some b => bool_decide (parameters a = parameters b)
  | _, _ => false
  end.

(** [boost::python::object] as held in the two generic slots: [PyNone]
    is the default-constructed object, [PyRef] an opaque Python object
    with its identity and a rendering of its contents. *)
Inductive object := PyNone | PyRef (id : nat) (contents : Z).

Definition is_none (o : object) : bool :=
  match o with PyNone => true | PyRef _ _ => false end.

(** Identity of a generic object, when there is one. *)
Definition object_id (o : object) : option nat :=
  match o with PyNone => None | PyRef i _ => Some i end.

(** Modelled from the spec: [dxtbx::model::Experiment], one handle per
    typed kind and the two generic slots. *)
Record Experiment := {
  beam : shared_ptr;
  detector : shared_ptr;
  goniometer : shared_ptr;
  scan : shared_ptr;
  crystal : shared_ptr;
  profile : object;
  imageset : object
}.

(** The typed slot of kind [k]: [get_beam], [get_detector], ... *)
Definition get_model (k : Kind) (e : Experiment) : shared_ptr :=
  match k with
  | Beam => beam e
  | Detector => detector e
  | Goniometer => goniometer e
  | Scan => scan e
  | Crystal => crystal e
  end.

(** [set_beam], [set_detector], ...: retarget one slot, keep the rest. *)
Definition set_model (k : Kind) (p : shared_ptr) (e : Experiment) : Experiment :=
  match k with
  | Beam =>
      {| beam := p; detector := detector e; goniometer := goniometer e;
         scan := scan e; crystal := crystal e;
         profile := profile e; imageset := imageset e |}
  | Detector =>
      {| beam := beam e; detector := p; goniometer := goniometer e;
         scan := scan e; crystal := crystal e;
         profile := profile e; imageset := imageset e |}
  | Goniometer =>
      {| beam := beam e; detector := detector e; goniometer := p;
         scan := scan e; crystal := crystal e;
         profile := profile e; imageset := imageset e |}
  | Scan =>
      {| beam := beam e; detector := detector e; goniometer := goniometer e;
         scan := p; crystal := crystal e;
         profile := profile e; imageset := imageset e |}
  | Crystal =>
      {| beam := beam e; detector := detector e; goniometer := goniometer e;
         scan := scan e; crystal := p;
         profile := profile e; imageset := imageset e |}
  end.

(** ** Calls that may raise and that act on an object *)

Inductive exception := IndexError | TypeError.

(** How a call ends: it returns, it raises a Python exception, or it ran
    into C++ undefined behaviour (an unchecked access past the end). *)
Inductive outcome (A : Type) :=
  | Returned (a : A)
  | Raised (e : exception)
  | Undefined.
Arguments Returned {A} a.
Arguments Raised {A} e.
Arguments Undefined {A}.

(** A call on an object of state [S]: the outcome and the state left. *)
Definition M (S A : Type) : Type := S → outcome A * S.

Definition ret {S A} (a : A) : M S A := λ s, (Returned a, s).

Definition bind {S A B} (m : M S A) (k : A → M S B) : M S B :=
  λ s, match m s with
       | (Returned a, s') => k a s'
       | (Raised e, s') => (Raised e, s')
       | (Undefined, s') => (Undefined, s')
       end.

Definition raise {S A} (e : exception) : M S A := λ s, (Raised e, s).
Definition get {S} : M S S := λ s, (Returned s, s).

(** A [const] member function: reads the object, never writes it. *)
Definition const_call {S A} (f : S → A) : M S A := λ s, (Returned (f s), s).

#[global] Instance M_ret {S} : MRet (M S) := λ A, @ret S A.
#[global] Instance M_bind {S} : MBind (M S) := λ A B k m, @bind S A B m k.

(** [for (std::size_t i = lo; i < lo + count; ++i) body(i)], for a bound
    the body does not change. *)
Fixpoint for_range {S} (count : nat) (i : N) (body : N → M S unit) : M S unit :=
  match count with
  | O => ret tt
  | S c => body i ;; for_range c (N.succ i) body
  end.

(** An outcome computed outside the object, brought into a call. *)
Definition lift {S A} (o : outcome A) : M S A := λ s, (o, s).

(** ** The container core *)

Module ExperimentList.

(** The sequence [data_] of the class. *)
Abbreviation t := (list Experiment).

(** Modelled from the spec: [ExperimentList::size], the number of
    Experiments held; the class is declared in
    [dxtbx/model/experiment_list.h]. *)
Definition size (self : t) : N := N.of_nat (length self).

(** Modelled from the spec: [ExperimentList::empty]. *)
Definition empty (self : t) : bool := bool_decide (self = []).

(** Modelled from the spec: [ExperimentList::append], the new element
    goes last. *)
Definition append (e : Experiment) : M t unit :=
  λ self, (Returned tt, self ++ [e]).

(** Modelled from the spec: [ExperimentList::extend] appends all the
    elements of [other], in their order. *)
Definition extend (other : t) : M t unit :=
  λ self, (Returned tt, self ++ other).

(** Modelled from the spec: [ExperimentList::clear]. *)
Definition clear : M t unit := λ _, (Returned tt, []).

(** Modelled from the spec: the unchecked [operator[]] read.  Past the
    end the C++ access has no defined behaviour. *)
Definition subscript (n : N) (self : t) : outcome Experiment :=
  match self !! N.to_nat n with
  | Some e => Returned e
  | None => Undefined
  end.

(** Modelled from the spec: [self[n] = item], position [n] is
    overwritten in place. *)
Definition subscript_assign (n : N) (item : Experiment) : M t unit :=
  λ self, if decide (N.to_nat n < length self)%nat
          then (Returned tt, <[N.to_nat n := item]> self)
          else (Undefined, self).

(** Modelled from the spec: [ExperimentList::erase] removes position
    [n] and shifts the later elements down by one. *)
Definition erase (n : N) : M t unit :=
  λ self, if decide (N.to_nat n < length self)%nat
          then (Returned tt, delete (N.to_nat n) self)
          else (Undefined, self).

(** Modelled from the spec: the single linear scan of the identity
    index: the positions, counted from [i], of the elements that
    satisfy [p], in ascending order. *)
Fixpoint scan_from (p : Experiment → bool) (i : N) (l : t) : list N :=
  match l with
  | [] => []
  | e :: rest =>
      if p e then i :: scan_from p (N.succ i) rest
      else scan_from p (N.succ i) rest
  end.

(** Modelled from the spec: [ExperimentList::contains] for the typed
    kind [k]: some Experiment's [k]-slot is [obj] by identity. *)
Definition contains (k : Kind) (obj : shared_ptr) (self : t) : bool :=
  existsb (λ e, same_instance (get_model k e) obj) self.

(** Modelled from the spec: [ExperimentList::indices] for the typed
    kind [k]: every position whose [k]-slot is [obj] by identity,
    ascending. *)
Definition indices (k : Kind) (obj : shared_ptr) (self : t) : list N :=
  scan_from (λ e, same_instance (get_model k e) obj) 0 self.

(** Modelled from the spec: [ExperimentList::replace] for the typed
    kind [k]: one full pass; each Experiment whose [k]-slot is [a] by
    identity gets [b] in that slot, the others are not touched. *)
Definition replace (k : Kind) (a b : shared_ptr) : M t unit :=
  λ self,
    (Returned tt,
     (λ e, if same_instance (get_model k e) a then set_model k b e else e)
       <$> self).

(** The keyword arguments of [where], as the interface declares them. *)
Record where_args := {
  arg_beam : shared_ptr;
  arg_detector : shared_ptr;
  arg_goniometer : shared_ptr;
  arg_scan : shared_ptr;
  arg_crystal : shared_ptr;
  arg_profile : object;
  arg_imageset : object
}.

(** Modelled from the spec: a typed filter.  The empty handle is
    "unset" and accepts every Experiment; otherwise the slot has to be
    that instance. *)
Definition accepts_model (filter slot : shared_ptr) : bool :=
  match filter with
  | None => true
  | Some _ => same_instance slot filter
  end.

Section Generic.

(** The equality contract of the objects held in the generic slots
    (Python's [==] on them). *)
Variable object_eq : object → object → bool.

(** Modelled from the spec: a generic filter.  [None] is "unset";
    otherwise the slot has to equal the object by its contract. *)
Definition accepts_object (filter slot : object) : bool :=
  if is_none filter then true else object_eq slot filter.

(** Modelled from the spec: every supplied filter matches. *)
Definition accepts (a : where_args) (e : Experiment) : bool :=
  accepts_model (arg_beam a) (beam e)
  && accepts_model (arg_detector a) (detector e)
  && accepts_model (arg_goniometer a) (goniometer e)
  && accepts_model (arg_scan a) (scan e)
  && accepts_model (arg_crystal a) (crystal e)
  && accepts_object (arg_profile a) (profile e)
  && accepts_object (arg_imageset a) (imageset e).

(** Modelled from the spec: [ExperimentList::where], the ascending
    positions of the Experiments that every supplied filter
    accepts. *)
Definition where_ (a : where_args) (self : t) : list N :=
  scan_from (accepts a) 0 self.

End Generic.

Section Consistency.

(** The domain policy: the typed slots that the Experiments of one
    imageset have to share.  The specification names the detector and
    leaves the others to the domain. *)
Variable policy : list Kind.

(** Modelled from the spec: the Experiments that have an imageset,
    grouped by its identity.  An Experiment without one is a group of
    its own, with nothing to compare. *)
Definition groups (self : t) : gmap nat (list Experiment) :=
  foldr (λ e m,
           match object_id (imageset e) with
           | Some key => <[key := e :: default [] (m !! key)]> m
           | None => m
           end) ∅ self.

(** Modelled from the spec: two Experiments hold the same instance in
    every slot of the policy. *)
Definition agree (a b : Experiment) : bool :=
  forallb (λ k, same_instance (get_model k a) (get_model k b)) policy.

(** Modelled from the spec: all the members of a group hold what its
    first member holds. *)
Definition group_agrees (g : list Experiment) : bool :=
  match g with
  | [] => true
  | e :: rest => forallb (agree e) rest
  end.

(** Modelled from the spec: [ExperimentList::is_consistent]: within
    every imageset group the slots of the policy are identity-equal
    across the members. *)
Definition is_consistent (self : t) : bool :=
  forallb group_agrees (snd <$> map_to_list (groups self)).

End Consistency.

End ExperimentList.

(** Modelled from the spec: [scitbx::boost_python::raise_index_error]
    raises the out-of-range error, Python's [IndexError]. *)
Definition raise_index_error {S} : M S unit := raise IndexError.

(** ** Scalar indexed access *)

Definition experiment_list_setitem (n : N) (item : Experiment)
  : M ExperimentList.t unit :=
  self ← get;
  (if decide (ExperimentList.size self ≤ n)%N then raise_index_error else ret tt) ;;
  ExperimentList.subscript_assign n item.

Definition experiment_list_getitem (n : N) : M ExperimentList.t Experiment :=
  self ← get;
  (if decide (ExperimentList.size self ≤ n)%N then raise_index_error else ret tt) ;;
  lift (ExperimentList.subscript n self).

Definition experiment_list_delitem (n : N) : M ExperimentList.t unit :=
  self ← get;
  (if decide (ExperimentList.size self ≤ n)%N then raise_index_error else ret tt) ;;
  ExperimentList.erase n.

(** ** Slices *)

(** A Python slice object: each of the three items may be left out. *)
Record slice := {
  slice_start : option Z;
  slice_stop : option Z;
  slice_step : option Z
}.

(** Modelled from the spec: [scitbx::boost_python::adapted_slice], a
    slice made to fit a sequence of a given size, with the three
    bounds that the loop reads; they are C++ [long]s. *)
Record adapted_slice := { start : Z; stop : Z; step : Z }.

(** Conversion of an integer to [std::size_t], and the addition of a
    [long] to a [std::size_t], both modulo [2^64]. *)
Definition to_size_t (z : Z) : N := Z.to_N (z mod 2 ^ 64).

(** The values a C++ [long] takes. *)
Definition is_long (z : Z) : Prop := - 2 ^ 63 ≤ z < 2 ^ 63.

Section Slicing.

(** The constructor of [scitbx::boost_python::adapted_slice], from the
    slice and the size of the sequence.  It belongs to scitbx; the
    functions below take it as a parameter. *)
Variable adapt : slice → N → adapted_slice.

(** The loop of [experiment_list_getitem_slice], from position [i] on,
    [result] being the list built so far.  [None]: the loop is still
    running when [fuel] iterations are over. *)
Fixpoint slice_loop (fuel : nat) (self : ExperimentList.t) (a : adapted_slice)
    (i : N) (result : ExperimentList.t) : option (outcome ExperimentList.t) :=
  match fuel with
  | O => None
  | S fuel' =>
      if (i <? to_size_t (stop a))%N && (i <? ExperimentList.size self)%N then
        match ExperimentList.subscript i self with
        | Returned e =>
            slice_loop fuel' self a (to_size_t (Z.of_N i + step a))
              (snd (ExperimentList.append e result))
        | Raised x => Some (Raised x)
        | Undefined => Some Undefined
        end
      else Some (Returned result)
  end.

Definition experiment_list_getitem_slice (fuel : nat)
    (self : ExperimentList.t) (s : slice) : option (outcome ExperimentList.t) :=
  let a := adapt s (ExperimentList.size self) in
  slice_loop fuel self a (to_size_t (start a)) [].

End Slicing.

(** The iteration as the specification words it, over the integers:
    [i = start, start+step, ...] while [i < stop] and [i < size]; the
    list is that of the positions visited. *)
Inductive visits (stop step size : Z) : Z → list Z → Prop :=
  | visits_end i : ¬ (i < stop ∧ i < size) → visits stop step size i []
  | visits_next i l :
      i < stop → i < size →
      visits stop step size (i + step) l →
      visits stop step size i (i :: l).

(** An adapted slice that runs forward through the sequence: three
    [long]s, bounds that are not negative, a positive step, and a size
    that a [long] can hold. *)
Definition forward (a : adapted_slice) (size : N) : Prop :=
  is_long (start a) ∧ is_long (stop a) ∧ is_long (step a)
  ∧ 0 ≤ start a ∧ 0 ≤ stop a ∧ 0 < step a ∧ Z.of_N size < 2 ^ 63.

(** The slicing claim as it is worded, for one list and one slice: the
    call returns the list of the Experiments at the positions that the
    iteration over the integers visits, in that order. *)
Definition slice_as_worded (adapt : slice → N → adapted_slice)
    (self : ExperimentList.t) (s : slice) : Prop :=
  ∃ visited result,
    visits (stop (adapt s (ExperimentList.size self)))
      (step (adapt s (ExperimentList.size self)))
      (Z.of_N (ExperimentList.size self))
      (start (adapt s (ExperimentList.size self))) visited
    ∧ Forall2 (λ z e, 0 ≤ z ∧ self !! Z.to_nat z = Some e) visited result
    ∧ ∃ enough, ∀ fuel, (enough ≤ fuel)%nat →
        experiment_list_getitem_slice adapt fuel self s = Some (Returned result).

(** The adapted bounds on which the loop does what the iteration over
    the integers does: either the iteration goes forward from a start
    that is not negative and is below [stop] and the size, or there is
    nothing to visit, over the integers and also as the loop reads the
    bounds, as [std::size_t]. *)
Definition reads_as_integers (a : adapted_slice) (size : N) : Prop :=
  (0 ≤ start a ∧ 0 < step a ∧ start a < stop a ∧ start a < Z.of_N size)
  ∨ (¬ (start a < stop a ∧ start a < Z.of_N size)
     ∧ ¬ ((to_size_t (start a) < to_size_t (stop a))%N
          ∧ (to_size_t (start a) < size)%N)).

(** ** Construction and pickling *)

(** Python values as the constructor and the pickle suite see them. *)
#[local] Unset Elimination Schemes.
Inductive pyvalue :=
  | PyObject (o : object)
  | PyExperiment (e : Experiment)
  | PyList (items : list pyvalue)
  | PyTuple (items : list pyvalue).
#[local] Set Elimination Schemes.

(** [boost::python::len]. *)
Definition len (o : pyvalue) : outcome N :=
  match o with
  | PyList items | PyTuple items => Returned (N.of_nat (length items))
  | _ => Raised TypeError
  end.

(** [items[i]] on a Python value. *)
Definition py_getitem (o : pyvalue) (i : N) : outcome pyvalue :=
  match o with
  | PyList items | PyTuple items =>
      match items !! N.to_nat i with
      | Some v => Returned v
      | None => Raised IndexError
      end
  | _ => Raised TypeError
  end.

(** [boost::python::extract<Experiment>(v)()]. *)
Definition extract_Experiment (v : pyvalue) : outcome Experiment :=
  match v with
  | PyExperiment e => Returned e
  | _ => Raised TypeError
  end.

(** What a function that built an object by calls on it returns. *)
Definition built {S A B} (r : outcome A * S) (f : S → B) : outcome B :=
  match r with
  | (Returned _, s) => Returned (f s)
  | (Raised x, _) => Raised x
  | (Undefined, _) => Undefined
  end.

Definition make_experiment_list (items : pyvalue) : outcome ExperimentList.t :=
  built
    ((n ← lift (len items);
      for_range (N.to_nat n) 0 (λ i,
        item ← lift (py_getitem items i);
        e ← lift (extract_Experiment item);
        ExperimentList.append e)) [])
    (λ experiment, experiment).

(** The [__init__] that [export_experiment_list] registers: the
    constructor made from [make_experiment_list], of one argument. *)
Definition ExperimentList_init (args : list pyvalue) : outcome ExperimentList.t :=
  match args with
  | [items] => make_experiment_list items
  | _ => Raised TypeError
  end.

Module ExperimentListPickleSuite.

(** [experiments.append(v)] on a Python list. *)
Definition list_append (v : pyvalue) : M (list pyvalue) unit :=
  λ experiments, (Returned tt, experiments ++ [v]).

Definition getinitargs (obj : ExperimentList.t) : outcome pyvalue :=
  built
    (for_range (N.to_nat (ExperimentList.size obj)) 0 (λ i,
       e ← lift (ExperimentList.subscript i obj);
       list_append (PyExperiment e)) [])
    (λ experiments, PyTuple [PyList experiments]).

(** Unpickling: the class is called on the arguments that
    [getinitargs] saved. *)
Definition restore (saved : pyvalue) : outcome ExperimentList.t :=
  match saved with
  | PyTuple args => ExperimentList_init args
  | _ => Raised TypeError
  end.

End ExperimentListPickleSuite.

(** ** The dictionary hooks *)

(** [to_dict<ExperimentList>]: a fresh dictionary, returned as it is. *)
Definition to_dict (obj : ExperimentList.t) : gmap string pyvalue :=
  let result : gmap string pyvalue := ∅ in
  result.

(** [from_dict<ExperimentList>]: [new ExperimentList()]. *)
Definition from_dict (obj : gmap string pyvalue) : ExperimentList.t := [].

(** ** Selection of the overloads by type *)

Module experiment_list_contains_pointers.
Definition beam := ExperimentList.contains Beam.
Definition detector := ExperimentList.contains Detector.
Definition goniometer := ExperimentList.contains Goniometer.
Definition scan := ExperimentList.contains Scan.
Definition crystal := ExperimentList.contains Crystal.
End experiment_list_contains_pointers.

Module experiment_list_replace_pointers.
Definition beam := ExperimentList.replace Beam.
Definition detector := ExperimentList.replace Detector.
Definition goniometer := ExperimentList.replace Goniometer.
Definition scan := ExperimentList.replace Scan.
Definition crystal := ExperimentList.replace Crystal.
End experiment_list_replace_pointers.

Module experiment_list_indices_pointers.
Definition beam := ExperimentList.indices Beam.
Definition detector := ExperimentList.indices Detector.
Definition goniometer := ExperimentList.indices Goniometer.
Definition scan := ExperimentList.indices Scan.
Definition crystal := ExperimentList.indices Crystal.
End experiment_list_indices_pointers.

(** The overload that the interface selects for a model of kind [k]. *)
Definition contains_of (k : Kind) :=
  match k with
  | Beam => experiment_list_contains_pointers.beam
  | Detector => experiment_list_contains_pointers.detector
  | Goniometer => experiment_list_contains_pointers.goniometer
  | Scan => experiment_list_contains_pointers.scan
  | Crystal => experiment_list_contains_pointers.crystal
  end.

Definition indices_of (k : Kind) :=
  match k with
  | Beam => experiment_list_indices_pointers.beam
  | Detector => experiment_list_indices_pointers.detector
  | Goniometer => experiment_list_indices_pointers.goniometer
  | Scan => experiment_list_indices_pointers.scan
  | Crystal => experiment_list_indices_pointers.crystal
  end.

Definition replace_of (k : Kind) :=
  match k with
  | Beam => experiment_list_replace_pointers.beam
  | Detector => experiment_list_replace_pointers.detector
  | Goniometer => experiment_list_replace_pointers.goniometer
  | Scan => experiment_list_replace_pointers.scan
  | Crystal => experiment_list_replace_pointers.crystal
  end.

(** ** The consistency validator as a scan of the list *)




(** The Experiments of the imageset of identity [key]. *)
Definition of_imageset (key : nat) (e : Experiment) : Prop :=
  object_id (imageset e) = Some key.

#[global] Instance of_imageset_dec key e : Decision (of_imageset key e).
Proof. unfold of_imageset. apply _. Defined.


(** ** Combination of filters *)

#[global] Instance object_eq_dec : EqDecision object.
Proof. solve_decision. Defined.

(** The default arguments that [export_experiment_list] gives to
    [where]: empty handles and [None], every filter unset. *)
Definition where_defaults : ExperimentList.where_args :=
  {| ExperimentList.arg_beam := None;
     ExperimentList.arg_detector := None;
     ExperimentList.arg_goniometer := None;
     ExperimentList.arg_scan := None;
     ExperimentList.arg_crystal := None;
     ExperimentList.arg_profile := PyNone;
     ExperimentList.arg_imageset := PyNone |}.

(** One slot of two sets of filters: the filter that is supplied. *)
Definition both_models (f1 f2 : shared_ptr) : shared_ptr :=
  match f1 with None => f2 | Some _ => f1 end.

Definition both_objects (f1 f2 : object) : object :=
  if is_none f1 then f2 else f1.

(** The filters of [a1] and those of [a2], supplied in one call. *)
Definition both (a1 a2 : ExperimentList.where_args) : ExperimentList.where_args :=
  {| ExperimentList.arg_beam :=
       both_models (ExperimentList.arg_beam a1) (ExperimentList.arg_beam a2);
     ExperimentList.arg_detector :=
       both_models (ExperimentList.arg_detector a1) (ExperimentList.arg_detector a2);
     ExperimentList.arg_goniometer :=
       both_models (ExperimentList.arg_goniometer a1) (ExperimentList.arg_goniometer a2);
     ExperimentList.arg_scan :=
       both_models (ExperimentList.arg_scan a1) (ExperimentList.arg_scan a2);
     ExperimentList.arg_crystal :=
       both_models (ExperimentList.arg_crystal a1) (ExperimentList.arg_crystal a2);
     ExperimentList.arg_profile :=
       both_objects (ExperimentList.arg_profile a1) (ExperimentList.arg_profile a2);
     ExperimentList.arg_imageset :=
       both_objects (ExperimentList.arg_imageset a1) (ExperimentList.arg_imageset a2) |}.

(** One slot of two sets of filters: not constrained to two different
    instances. *)
Definition compatible_models (f1 f2 : shared_ptr) : bool :=
  match f1, f2 with
  | Some _, Some _ => same_instance f1 f2
  | _, _ => true
  end.

Definition compatible_objects (f1 f2 : object) : bool :=
  is_none f1 || is_none f2 || bool_decide (f1 = f2).

(** Two sets of filters can go into one call: a slot that both
    constrain is given the same object by both. *)
Definition compatible (a1 a2 : ExperimentList.where_args) : bool :=
  compatible_models (ExperimentList.arg_beam a1) (ExperimentList.arg_beam a2)
  && compatible_models (ExperimentList.arg_detector a1) (ExperimentList.arg_detector a2)
  && compatible_models (ExperimentList.arg_goniometer a1) (ExperimentList.arg_goniometer a2)
  && compatible_models (ExperimentList.arg_scan a1) (ExperimentList.arg_scan a2)
  && compatible_models (ExperimentList.arg_crystal a1) (ExperimentList.arg_crystal a2)
  && compatible_objects (ExperimentList.arg_profile a1) (ExperimentList.arg_profile a2)
  && compatible_objects (ExperimentList.arg_imageset a1) (ExperimentList.arg_imageset a2).

(** The call [where(k = obj)], one typed filter and the defaults. *)
Definition only (k : Kind) (obj : shared_ptr) : ExperimentList.where_args :=
  {| ExperimentList.arg_beam := if k is Beam then obj else None;
     ExperimentList.arg_detector := if k is Detector then obj else None;
     ExperimentList.arg_goniometer := if k is Goniometer then obj else None;
     ExperimentList.arg_scan := if k is Scan then obj else None;
     ExperimentList.arg_crystal := if k is Crystal then obj else None;
     ExperimentList.arg_profile := PyNone;
     ExperimentList.arg_imageset := PyNone |}.

(** The index range [[0, size())]. *)
Definition all_positions (self : ExperimentList.t) : list N :=
  N.of_nat <$> seq 0 (length self).

(** ** Sample data *)

(** Two beams with the same parameters at two addresses, a third one
    that differs, and two detectors. *)
Definition beam_1 : shared_ptr := Some {| address := 1; parameters := [1; 0; 0] |}.
Definition beam_1' : shared_ptr := Some {| address := 2; parameters := [1; 0; 0] |}.
Definition beam_2 : shared_ptr := Some {| address := 3; parameters := [0; 0; 1] |}.
Definition detector_1 : shared_ptr := Some {| address := 10; parameters := [512; 512] |}.
Definition detector_2 : shared_ptr := Some {| address := 11; parameters := [512; 512] |}.
Definition imageset_1 : object := PyRef 20 7.

Definition experiment_with (b d : shared_ptr) (i : object) : Experiment :=
  {| beam := b; detector := d; goniometer := None; scan := None;
     crystal := None; profile := PyNone; imageset := i |}.

Definition example_slice : slice :=
  {| slice_start := Some 0; slice_stop := Some 5; slice_step := Some 2 |}.

(** An adaptation for the examples: what is left out is the whole
    range in steps of one, and [stop] is cut at the size. *)
Definition example_adapt (s : slice) (size : N) : adapted_slice :=
  {| start := default 0 (slice_start s);
     stop := Z.min (default (Z.of_N size) (slice_stop s)) (Z.of_N size);
     step := default 1 (slice_step s) |}.

(** Three Experiments, the first two on beams of equal value. *)
Definition three_experiments : ExperimentList.t :=
  [experiment_with beam_1 detector_1 PyNone;
   experiment_with beam_1' detector_1 PyNone;
   experiment_with beam_2 detector_2 PyNone].

(** * Properties *)

(** ** Scalar indexed access *)

(** C3: [get], [set] and [delete] at an index [n] raise [IndexError]
    and leave the list as it was when [n >= size()]; when [n < size()]
    they succeed: [get] returns the element at [n], [set] overwrites
    position [n], [delete] removes it. *)
Theorem indexed_access_checks_bounds (self : ExperimentList.t) (n : N) (item : Experiment) :
  ((ExperimentList.size self ≤ n)%N →
     experiment_list_getitem n self = (Raised IndexError, self)
     ∧ experiment_list_setitem n item self = (Raised IndexError, self)
     ∧ experiment_list_delitem n self = (Raised IndexError, self))
  ∧ ((n < ExperimentList.size self)%N →
     (∃ e, self !! N.to_nat n = Some e
           ∧ experiment_list_getitem n self = (Returned e, self))
     ∧ experiment_list_setitem n item self
       = (Returned tt, <[N.to_nat n := item]> self)
     ∧ experiment_list_delitem n self
       = (Returned tt, delete (N.to_nat n) self)).
Proof.
  unfold experiment_list_getitem, experiment_list_setitem, experiment_list_delitem.
  unfold mbind, M_bind, bind, get, raise_index_error, raise, mret, M_ret, ret, lift.
  split; intros Hn; simpl.
  - destruct (decide (ExperimentList.size self ≤ n)%N) as [_|Hc]; [done | lia].
  - destruct (decide (ExperimentList.size self ≤ n)%N) as [Hc|_]; [lia |].
    assert (Hlt : (N.to_nat n < length self)%nat)
      by (unfold ExperimentList.size in Hn; lia).
    unfold ExperimentList.subscript, ExperimentList.subscript_assign,
      ExperimentList.erase.
    destruct (lookup_lt_is_Some_2 self (N.to_nat n) Hlt) as [e He].
    rewrite He. rewrite !decide_True by done. eauto.
Qed.

(** Scenario 5 and its converse: on three Experiments, [get] at
    position 5 is refused and [delete] at position 1 is carried out. *)
Lemma indexed_access_checks_bounds_witness :
  experiment_list_getitem 5
    [experiment_with beam_1 detector_1 PyNone;
     experiment_with beam_1' detector_1 PyNone;
     experiment_with beam_2 detector_2 PyNone]
  = (Raised IndexError,
     [experiment_with beam_1 detector_1 PyNone;
      experiment_with beam_1' detector_1 PyNone;
      experiment_with beam_2 detector_2 PyNone])
  ∧ experiment_list_delitem 1
      [experiment_with beam_1 detector_1 PyNone;
       experiment_with beam_1' detector_1 PyNone;
       experiment_with beam_2 detector_2 PyNone]
    = (Returned tt,
       [experiment_with beam_1 detector_1 PyNone;
        experiment_with beam_2 detector_2 PyNone]).
Proof.
  split.
  - apply (indexed_access_checks_bounds
             [experiment_with beam_1 detector_1 PyNone;
              experiment_with beam_1' detector_1 PyNone;
              experiment_with beam_2 detector_2 PyNone]
             5 (experiment_with beam_2 detector_2 PyNone)).
    vm_compute. discriminate.
  - apply (indexed_access_checks_bounds
             [experiment_with beam_1 detector_1 PyNone;
              experiment_with beam_1' detector_1 PyNone;
              experiment_with beam_2 detector_2 PyNone]
             1 (experiment_with beam_2 detector_2 PyNone)).
    reflexivity.
Defined.

(** ** Construction and pickling *)

Section ForRange.
Context {A B : Type}.
Variable xs : list A.
Variable g : A → B.
Variable body : N → M (list B) unit.

(** A loop whose body at [i] appends the image of the [i]-th element
    copies a segment of [xs]. *)
Lemma for_range_appends :
  (∀ i x acc, xs !! i = Some x →
     body (N.of_nat i) acc = (Returned tt, acc ++ [g x])) →
  ∀ count i acc, (i + count ≤ length xs)%nat →
    for_range count (N.of_nat i) body acc
    = (Returned tt, acc ++ (g <$> take count (drop i xs))).
Proof.
  intros Hbody count. induction count as [|count IH]; intros i acc Hle; simpl.
  - by rewrite app_nil_r.
  - destruct (lookup_lt_is_Some_2 xs i) as [x Hx]; [lia |].
    unfold mbind, M_bind, bind. rewrite (Hbody i x acc Hx).
    rewrite <- Nat2N.inj_succ, IH by lia.
    rewrite (drop_S xs x i Hx). simpl.
    by rewrite <- app_assoc.
Qed.

End ForRange.

Lemma getinitargs_lists_elements (obj : ExperimentList.t) :
  ExperimentListPickleSuite.getinitargs obj
  = Returned (PyTuple [PyList (PyExperiment <$> obj)]).
Proof.
  unfold ExperimentListPickleSuite.getinitargs, ExperimentList.size.
  rewrite Nat2N.id.
  rewrite (for_range_appends obj PyExperiment _) with (i := 0%nat); [| | lia].
  - simpl. by rewrite drop_0, firstn_all.
  - intros i x acc Hx. unfold mbind, M_bind, bind, lift, ExperimentList.subscript.
    by rewrite Nat2N.id, Hx.
Qed.

Lemma make_experiment_list_copies (l : ExperimentList.t) :
  make_experiment_list (PyList (PyExperiment <$> l)) = Returned l.
Proof.
  unfold make_experiment_list. unfold mbind at 1. unfold M_bind, bind, lift.
  simpl len. cbv iota beta. rewrite Nat2N.id, length_fmap.
  rewrite (for_range_appends l id _) with (i := 0%nat); [| | lia].
  - simpl. by rewrite drop_0, firstn_all, list_fmap_id.
  - intros i x acc Hx. unfold mbind, M_bind, bind, lift, py_getitem.
    rewrite Nat2N.id, list_lookup_fmap, Hx. done.
Qed.

(** C8: [getinitargs] yields the one-element tuple holding the
    Experiments of the list in index order and nothing else, and the
    constructor applied to it gives a list of the same size with the
    same element at every position. *)
Theorem pickle_round_trip (obj : ExperimentList.t) :
  ExperimentListPickleSuite.getinitargs obj
  = Returned (PyTuple [PyList (PyExperiment <$> obj)])
  ∧ ∃ restored,
      ExperimentListPickleSuite.restore (PyTuple [PyList (PyExperiment <$> obj)])
      = Returned restored
      ∧ ExperimentList.size restored = ExperimentList.size obj
      ∧ ∀ i, restored !! i = obj !! i.
Proof.
  split; [apply getinitargs_lists_elements |].
  exists obj. simpl. by rewrite make_experiment_list_copies.
Qed.

(** ** The dictionary hooks *)

(** C10: [to_dict] returns the empty dictionary whatever the list
    holds, and [from_dict] returns a new empty list whatever the
    dictionary holds. *)
Theorem dict_hooks_discard (obj : ExperimentList.t) (d : gmap string pyvalue) :
  to_dict obj = ∅ ∧ from_dict d = [] ∧ ExperimentList.size (from_dict d) = 0%N.
Proof. done. Qed.

(** C9, as the code has it: exporting a list and importing the result
    gives the empty list, which is the list one started from only when
    that was empty. *)
Theorem dict_round_trip_is_empty (obj : ExperimentList.t) :
  from_dict (to_dict obj) = []
  ∧ (from_dict (to_dict obj) = obj ↔ obj = []).
Proof. split; [done |]. unfold from_dict. split; intros H; by subst. Qed.

(** C9 fails as stated: a list of one Experiment does not come back. *)
Lemma dict_round_trip_loses_elements :
  from_dict (to_dict [experiment_with beam_1 detector_1 imageset_1])
  ≠ [experiment_with beam_1 detector_1 imageset_1].
Proof. discriminate. Qed.

(** ** Identity of instances *)

Lemma same_instance_refl p : same_instance p p = true.
Proof. destruct p; simpl; [apply Nat.eqb_refl | done]. Qed.

Lemma same_instance_sym p q : same_instance p q = same_instance q p.
Proof. destruct p, q; simpl; [apply Nat.eqb_sym | done..]. Qed.

Lemma same_instance_trans p q r :
  same_instance p q = true → same_instance q r = true → same_instance p r = true.
Proof.
  destruct p, q, r; simpl; try done.
  rewrite !Nat.eqb_eq. congruence.
Qed.

(** Two handles on one instance cannot be told apart by a comparison. *)
Lemma same_instance_compat p q r :
  same_instance p q = true → same_instance r p = same_instance r q.
Proof.
  intros Hpq. destruct (same_instance r p) eqn:Hrp.
  - symmetry. by eapply same_instance_trans.
  - destruct (same_instance r q) eqn:Hrq; [| done].
    rewrite same_instance_sym in Hpq.
    by rewrite (same_instance_trans r q p Hrq Hpq) in Hrp.
Qed.

Lemma get_set_model k p e : get_model k (set_model k p e) = p.
Proof. by destruct k. Qed.

(** ** The linear scan *)

Section Scan.
Implicit Types (p q : Experiment → bool) (l : list Experiment) (i n : N).

Lemma scan_from_ge p l : ∀ i n, n ∈ ExperimentList.scan_from p i l → (i ≤ n)%N.
Proof.
  induction l as [|e l IH]; intros i n; simpl; [by intros ?%elem_of_nil |].
  destruct (p e).
  - intros [->|Hin%IH]%elem_of_cons; lia.
  - intros Hin%IH; lia.
Qed.

Lemma scan_from_nil_iff p l i :
  ExperimentList.scan_from p i l = [] ↔ ∀ e, e ∈ l → p e = false.
Proof.
  revert i. induction l as [|e l IH]; intros i; simpl.
  - split; [intros _ e' ?%elem_of_nil; done | done].
  - destruct (p e) eqn:Hp.
    + split; [done |]. intros H. specialize (H e (list_elem_of_here _ _)). congruence.
    + rewrite IH. split.
      * intros H e' [->|?]%elem_of_cons; auto.
      * intros H e' ?. apply H. by apply list_elem_of_further.
Qed.

Lemma scan_from_ext p q l i :
  (∀ e, e ∈ l → p e = q e) →
  ExperimentList.scan_from p i l = ExperimentList.scan_from q i l.
Proof.
  revert i. induction l as [|e l IH]; intros i H; simpl; [done |].
  rewrite <- (H e) by apply list_elem_of_here.
  rewrite IH; [done |]. intros e' ?. apply H. by apply list_elem_of_further.
Qed.

Lemma scan_from_fmap p (f : Experiment → Experiment) l i :
  ExperimentList.scan_from p i (f <$> l) = ExperimentList.scan_from (p ∘ f) i l.
Proof.
  revert i. induction l as [|e l IH]; intros i; simpl; [done |].
  by rewrite !IH.
Qed.

(** A sole match at position [j] is all the scan reports. *)
Lemma scan_from_sole p l : ∀ i (j : nat) e,
  l !! j = Some e → p e = true →
  (∀ j' e', j' ≠ j → l !! j' = Some e' → p e' = false) →
  ExperimentList.scan_from p i l = [(i + N.of_nat j)%N].
Proof.
  induction l as [|a l IH]; intros i j e Hj Hp Hothers; [done |].
  destruct j as [|j]; simpl in *.
  - injection Hj as ->. rewrite Hp. f_equal; [lia |].
    apply scan_from_nil_iff. intros e' [j' Hj']%list_elem_of_lookup.
    by apply (Hothers (S j') e').
  - rewrite (Hothers 0%nat a) by done.
    rewrite (IH (N.succ i) j e Hj Hp); [f_equal; lia |].
    intros j' e' Hne Hj'. apply (Hothers (S j') e'); [lia | done].
Qed.

Lemma scan_from_all l i :
  ExperimentList.scan_from (λ _, true) i l
  = (λ j, (i + N.of_nat j)%N) <$> seq 0 (length l).
Proof.
  revert i. induction l as [|e l IH]; intros i; simpl; [done |].
  f_equal; [lia |]. rewrite IH, <- seq_shift, <- !list_fmap_compose.
  apply list_fmap_ext. intros _ j _. simpl. lia.
Qed.

Lemma list_intersection_skip (x : N) (l k : list N) :
  x ∉ l → list_intersection l (x :: k) = list_intersection l k.
Proof.
  induction l as [|y l IH]; intros Hx; simpl; [done |].
  apply not_elem_of_cons in Hx as [Hxy Hx].
  rewrite (IH Hx).
  destruct (decide_rel elem_of y k), (decide_rel elem_of y (x :: k)) as [Hin|Hnin];
    try done.
  - exfalso. apply Hnin. by apply list_elem_of_further.
  - apply elem_of_cons in Hin as [->|?]; done.
Qed.

(** Scanning for a conjunction is intersecting the two scans. *)
Lemma scan_from_and p q l i :
  ExperimentList.scan_from (λ e, p e && q e) i l
  = list_intersection (ExperimentList.scan_from p i l)
      (ExperimentList.scan_from q i l).
Proof.
  revert i. induction l as [|e l IH]; intros i; simpl; [done |].
  assert (Hp : i ∉ ExperimentList.scan_from p (N.succ i) l)
    by (intros ?%scan_from_ge; lia).
  assert (Hq : i ∉ ExperimentList.scan_from q (N.succ i) l)
    by (intros ?%scan_from_ge; lia).
  destruct (p e), (q e); simpl.
  - destruct (decide_rel elem_of i _) as [_|Hn];
      [| exfalso; apply Hn, list_elem_of_here].
    by rewrite list_intersection_skip, IH.
  - destruct (decide_rel elem_of i _) as [Hin|_]; [done |]. apply IH.
  - by rewrite list_intersection_skip, IH.
  - apply IH.
Qed.

End Scan.

(** ** [contains] and [indices] *)

Lemma contains_of_eq k : contains_of k = ExperimentList.contains k.
Proof. by destruct k. Qed.

Lemma indices_of_eq k : indices_of k = ExperimentList.indices k.
Proof. by destruct k. Qed.

Lemma replace_of_eq k : replace_of k = ExperimentList.replace k.
Proof. by destruct k. Qed.

(** C1: when the Experiment at position [n] holds [B] in its slot of
    kind [k] and no Experiment elsewhere holds that instance, then
    [contains(B)] is true and [indices(B)] is [[n]].  Nothing is asked
    of the values the other Experiments' instances have: they may well
    equal that of [B]. *)
Theorem sole_holder_is_found (k : Kind) (B : shared_ptr)
    (self : ExperimentList.t) (n : nat) (e : Experiment) :
  self !! n = Some e →
  same_instance (get_model k e) B = true →
  (∀ m e', m ≠ n → self !! m = Some e' →
     same_instance (get_model k e') B = false) →
  contains_of k B self = true ∧ indices_of k B self = [N.of_nat n].
Proof.
  intros Hn He Hothers. rewrite contains_of_eq, indices_of_eq. split.
  - unfold ExperimentList.contains. apply existsb_exists. exists e. split; [| done].
    apply list_elem_of_In, list_elem_of_lookup. eauto.
  - unfold ExperimentList.indices.
    by rewrite (scan_from_sole _ self 0%N n e Hn He Hothers).
Qed.

(** The list [[e0; e1]] where [e0] holds a beam equal in value to
    [beam_1] but at another address, and [e1] holds [beam_1]. *)
Lemma sole_holder_is_found_witness :
  value_equal beam_1' beam_1 = true
  ∧ same_instance beam_1' beam_1 = false
  ∧ contains_of Beam beam_1
      [experiment_with beam_1' detector_1 PyNone;
       experiment_with beam_1 detector_1 PyNone] = true
  ∧ indices_of Beam beam_1
      [experiment_with beam_1' detector_1 PyNone;
       experiment_with beam_1 detector_1 PyNone] = [1%N].
Proof.
  split; [reflexivity |]. split; [reflexivity |].
  apply (sole_holder_is_found Beam beam_1
           [experiment_with beam_1' detector_1 PyNone;
            experiment_with beam_1 detector_1 PyNone]
           1 (experiment_with beam_1 detector_1 PyNone)).
  - reflexivity.
  - reflexivity.
  - intros [|[|m]] e' Hm He'; simpl in He'.
    + injection He' as <-. reflexivity.
    + lia.
    + discriminate.
Defined.

(** ** [replace] *)

(** C2 fails as stated, in two ways.  With [beam_2] already held at
    position 1, replacing [beam_1] by [beam_2] makes [indices(beam_2)]
    the two positions, not the one [indices(beam_1)] had; and
    replacing [beam_1] by itself leaves [indices(beam_1)] as it was,
    not empty. *)
Lemma replace_joins_earlier_holders :
  (indices_of Beam beam_1
     [experiment_with beam_1 detector_1 PyNone;
      experiment_with beam_2 detector_1 PyNone] = [0%N]
   ∧ indices_of Beam beam_2
       (snd (replace_of Beam beam_1 beam_2
               [experiment_with beam_1 detector_1 PyNone;
                experiment_with beam_2 detector_1 PyNone])) = [0%N; 1%N]
   ∧ indices_of Beam beam_2
       (snd (replace_of Beam beam_1 beam_2
               [experiment_with beam_1 detector_1 PyNone;
                experiment_with beam_2 detector_1 PyNone]))
     ≠ indices_of Beam beam_1
         [experiment_with beam_1 detector_1 PyNone;
          experiment_with beam_2 detector_1 PyNone])
  ∧ indices_of Beam beam_1
      (snd (replace_of Beam beam_1 beam_1
              [experiment_with beam_1 detector_1 PyNone])) ≠ [].
Proof.
  split; [split; [reflexivity |]; split; [reflexivity | discriminate] | discriminate].
Qed.

(** C2, amended: [replace(old, new)] returns on every list.  After it
    [indices(new)] is what [indices(old)] was, when no Experiment held
    [new] before the call or [new] is [old] itself; [indices(old)] is
    empty, when [new] is another instance than [old] or no Experiment
    held [old]; every Experiment whose slot is not [old] by identity
    (equal in value or not) is as it was; and with no match at all the
    list is as it was. *)
Theorem replace_retargets (k : Kind) (old new : shared_ptr)
    (self : ExperimentList.t) :
  ∃ self',
    replace_of k old new self = (Returned tt, self')
    ∧ (same_instance old new = true ∨ indices_of k new self = [] →
         indices_of k new self' = indices_of k old self)
    ∧ (same_instance old new = false ∨ indices_of k old self = [] →
         indices_of k old self' = [])
    ∧ (∀ i e, self !! i = Some e →
         same_instance (get_model k e) old = false → self' !! i = Some e)
    ∧ (indices_of k old self = [] → self' = self).
Proof.
  rewrite replace_of_eq, !indices_of_eq. unfold ExperimentList.indices.
  eexists. split; [reflexivity |].
  split; [| split; [| split]].
  - intros Hnew. rewrite scan_from_fmap. apply scan_from_ext. intros e He. simpl.
    destruct (same_instance (get_model k e) old) eqn:Hold.
    + by rewrite get_set_model, same_instance_refl.
    + destruct Hnew as [Hsame|Hnone].
      * by rewrite <- (same_instance_compat old new (get_model k e) Hsame).
      * rewrite scan_from_nil_iff in Hnone. by apply Hnone.
  - intros Hold. rewrite scan_from_fmap. apply scan_from_nil_iff. intros e He. simpl.
    destruct (same_instance (get_model k e) old) eqn:He_old; [| done].
    destruct Hold as [Hdiff|Hnone].
    + rewrite get_set_model. by rewrite same_instance_sym.
    + rewrite scan_from_nil_iff in Hnone. rewrite (Hnone e He) in He_old. done.
  - intros i e Hi Hold. by rewrite list_lookup_fmap, Hi; simpl; rewrite Hold.
  - intros Hnone. rewrite scan_from_nil_iff in Hnone.
    rewrite <- (list_fmap_id self) at 2. apply list_fmap_ext.
    intros i e Hi. rewrite Hnone; [done |]. apply list_elem_of_lookup. eauto.
Qed.

(** Three Experiments on [beam_1], and one on a beam of the same value
    at another address, which stays. *)
Lemma replace_retargets_witness :
  ∃ self',
    replace_of Beam beam_1 beam_2
      [experiment_with beam_1 detector_1 PyNone;
       experiment_with beam_1' detector_1 PyNone;
       experiment_with beam_1 detector_2 PyNone] = (Returned tt, self')
    ∧ indices_of Beam beam_2 self' = [0%N; 2%N]
    ∧ indices_of Beam beam_1 self' = []
    ∧ self' !! 1%nat = Some (experiment_with beam_1' detector_1 PyNone).
Proof.
  destruct (replace_retargets Beam beam_1 beam_2
              [experiment_with beam_1 detector_1 PyNone;
               experiment_with beam_1' detector_1 PyNone;
               experiment_with beam_1 detector_2 PyNone])
    as (self' & Hcall & Hnew & Hold & Hkept & _).
  exists self'. split; [exact Hcall |]. split; [| split].
  - apply Hnew. right. reflexivity.
  - apply Hold. left. reflexivity.
  - apply Hkept; reflexivity.
Defined.

(** ** [where] *)

Lemma accepts_both_models f1 f2 slot :
  compatible_models f1 f2 = true →
  ExperimentList.accepts_model (both_models f1 f2) slot
  = ExperimentList.accepts_model f1 slot && ExperimentList.accepts_model f2 slot.
Proof.
  destruct f1 as [m1|], f2 as [m2|]; intros Hc;
    unfold both_models, ExperimentList.accepts_model;
    rewrite ?andb_true_r; try done.
  rewrite <- (same_instance_compat (Some m1) (Some m2) slot Hc).
  by rewrite andb_diag.
Qed.

Section GenericFilters.
Variable object_eq : object → object → bool.

Lemma accepts_both_objects f1 f2 slot :
  compatible_objects f1 f2 = true →
  ExperimentList.accepts_object object_eq (both_objects f1 f2) slot
  = ExperimentList.accepts_object object_eq f1 slot
    && ExperimentList.accepts_object object_eq f2 slot.
Proof.
  unfold compatible_objects, both_objects, ExperimentList.accepts_object.
  destruct f1 as [|i1 c1], f2 as [|i2 c2]; simpl;
    rewrite ?andb_true_r; try done.
  intros ->%bool_decide_eq_true. by rewrite andb_diag.
Qed.

Lemma accepts_both a1 a2 e :
  compatible a1 a2 = true →
  ExperimentList.accepts object_eq (both a1 a2) e
  = ExperimentList.accepts object_eq a1 e && ExperimentList.accepts object_eq a2 e.
Proof.
  unfold compatible. rewrite !andb_true_iff.
  intros [[[[[[Hb Hd] Hg] Hs] Hc] Hp] Hi].
  unfold ExperimentList.accepts, both; simpl.
  rewrite (accepts_both_models _ _ _ Hb), (accepts_both_models _ _ _ Hd),
    (accepts_both_models _ _ _ Hg), (accepts_both_models _ _ _ Hs),
    (accepts_both_models _ _ _ Hc), (accepts_both_objects _ _ _ Hp),
    (accepts_both_objects _ _ _ Hi).
  generalize (ExperimentList.accepts_model (ExperimentList.arg_beam a1) (beam e)),
    (ExperimentList.accepts_model (ExperimentList.arg_beam a2) (beam e)),
    (ExperimentList.accepts_model (ExperimentList.arg_detector a1) (detector e)),
    (ExperimentList.accepts_model (ExperimentList.arg_detector a2) (detector e)),
    (ExperimentList.accepts_model (ExperimentList.arg_goniometer a1) (goniometer e)),
    (ExperimentList.accepts_model (ExperimentList.arg_goniometer a2) (goniometer e)),
    (ExperimentList.accepts_model (ExperimentList.arg_scan a1) (scan e)),
    (ExperimentList.accepts_model (ExperimentList.arg_scan a2) (scan e)),
    (ExperimentList.accepts_model (ExperimentList.arg_crystal a1) (crystal e)),
    (ExperimentList.accepts_model (ExperimentList.arg_crystal a2) (crystal e)),
    (ExperimentList.accepts_object object_eq (ExperimentList.arg_profile a1) (profile e)),
    (ExperimentList.accepts_object object_eq (ExperimentList.arg_profile a2) (profile e)),
    (ExperimentList.accepts_object object_eq (ExperimentList.arg_imageset a1) (imageset e)),
    (ExperimentList.accepts_object object_eq (ExperimentList.arg_imageset a2) (imageset e)).
  intros b1 b2 d1 d2 g1 g2 s1 s2 c1 c2 p1 p2 i1 i2.
  apply eq_iff_eq_true. rewrite !andb_true_iff. tauto.
Qed.

Lemma accepts_only k obj e :
  obj ≠ None →
  ExperimentList.accepts object_eq (only k obj) e
  = same_instance (get_model k e) obj.
Proof.
  intros Hobj. destruct obj as [m|]; [| done].
  unfold ExperimentList.accepts.
  destruct k; simpl; by rewrite ?andb_true_r.
Qed.

(** C5: with no filter [where] returns the whole range [[0, size())];
    one typed filter selects what [indices] does; and the filters of
    two compatible sets supplied together select the intersection of
    what each set selects. *)
Theorem where_is_conjunction (self : ExperimentList.t) :
  ExperimentList.where_ object_eq where_defaults self = all_positions self
  ∧ (∀ k obj, obj ≠ None →
       ExperimentList.where_ object_eq (only k obj) self = indices_of k obj self)
  ∧ (∀ a1 a2, compatible a1 a2 = true →
       ExperimentList.where_ object_eq (both a1 a2) self
       = list_intersection (ExperimentList.where_ object_eq a1 self)
           (ExperimentList.where_ object_eq a2 self)).
Proof.
  unfold ExperimentList.where_. split; [| split].
  - rewrite (scan_from_ext _ (λ _, true)) by done.
    rewrite scan_from_all. unfold all_positions.
    apply list_fmap_ext. intros _ j _. lia.
  - intros k obj Hobj. rewrite indices_of_eq. unfold ExperimentList.indices.
    apply scan_from_ext. intros e _. by apply accepts_only.
  - intros a1 a2 Hc. rewrite <- scan_from_and.
    apply scan_from_ext. intros e _. by apply accepts_both.
Qed.

End GenericFilters.

(** A beam filter and a detector filter on three Experiments, with
    identity as the equality of generic objects. *)
Lemma where_is_conjunction_witness :
  ExperimentList.where_ (λ a b, bool_decide (object_id a = object_id b))
    (both (only Beam beam_1) (only Detector detector_1))
    [experiment_with beam_1 detector_1 PyNone;
     experiment_with beam_1 detector_2 PyNone;
     experiment_with beam_2 detector_1 PyNone]
  = list_intersection [0%N; 1%N] [0%N; 2%N].
Proof.
  apply (where_is_conjunction (λ a b, bool_decide (object_id a = object_id b))
           [experiment_with beam_1 detector_1 PyNone;
            experiment_with beam_1 detector_2 PyNone;
            experiment_with beam_2 detector_1 PyNone]).
  reflexivity.
Defined.

(** ** [is_consistent] *)

Section ConsistencyFacts.
Variable policy : list Kind.

Lemma groups_member (self : ExperimentList.t) (e : Experiment) (key : nat) :
  e ∈ self → object_id (imageset e) = Some key →
  ∃ g, ExperimentList.groups self !! key = Some g ∧ e ∈ g.
Proof.
  intros Hin Hkey. induction self as [|a self IH]; [by apply elem_of_nil in Hin |].
  simpl. apply elem_of_cons in Hin as [<-|Hin].
  - rewrite Hkey. eexists. rewrite lookup_insert_eq. split; [done |].
    apply list_elem_of_here.
  - destruct (IH Hin) as (g & Hg & Heg).
    destruct (object_id (imageset a)) as [key'|]; [| eauto].
    destruct (decide (key' = key)) as [->|Hne].
    + eexists. rewrite lookup_insert_eq. split; [done |].
      rewrite Hg. simpl. by apply list_elem_of_further.
    + exists g. by rewrite lookup_insert_ne.
Qed.

Lemma agree_on k a b :
  k ∈ policy → ExperimentList.agree policy a b = true →
  same_instance (get_model k a) (get_model k b) = true.
Proof.
  unfold ExperimentList.agree. rewrite forallb_forall.
  intros Hk H. by apply H, list_elem_of_In.
Qed.

(** In a group that agrees, any two members hold the same instance in
    every slot of the policy. *)
Lemma group_agrees_pairwise g k a b :
  ExperimentList.group_agrees policy g = true →
  k ∈ policy → a ∈ g → b ∈ g →
  same_instance (get_model k a) (get_model k b) = true.
Proof.
  destruct g as [|h rest]; [by intros _ _ ?%elem_of_nil |].
  simpl. rewrite forallb_forall. intros Hall Hk Ha Hb.
  assert (Hh : ∀ x, x ∈ h :: rest →
                 same_instance (get_model k h) (get_model k x) = true).
  { intros x [->|Hx]%elem_of_cons.
    - apply same_instance_refl.
    - apply agree_on; [done |]. by apply Hall, list_elem_of_In. }
  eapply same_instance_trans; [| by apply Hh].
  rewrite same_instance_sym. by apply Hh.
Qed.

(** C6: two Experiments of one imageset with two different detectors
    make [is_consistent] return [false]; the call returns, it raises
    nothing, and the list is as it was. *)
Theorem shared_imageset_needs_one_detector (self : ExperimentList.t)
    (i j : nat) (e1 e2 : Experiment) (key : nat) :
  Detector ∈ policy →
  self !! i = Some e1 → self !! j = Some e2 →
  object_id (imageset e1) = Some key →
  object_id (imageset e2) = Some key →
  same_instance (detector e1) (detector e2) = false →
  const_call (ExperimentList.is_consistent policy) self = (Returned false, self).
Proof.
  intros Hpol Hi Hj Hk1 Hk2 Hdet. unfold const_call. f_equal. f_equal.
  apply not_true_is_false. unfold ExperimentList.is_consistent.
  rewrite forallb_forall. intros Hall.
  destruct (groups_member self e1 key) as (g & Hg & H1);
    [apply list_elem_of_lookup; eauto | done |].
  destruct (groups_member self e2 key) as (g' & Hg' & H2);
    [apply list_elem_of_lookup; eauto | done |].
  assert (g' = g) as -> by congruence.
  assert (Hgroup : ExperimentList.group_agrees policy g = true).
  { apply Hall, list_elem_of_In, list_elem_of_fmap. exists (key, g).
    split; [done |]. by apply elem_of_map_to_list. }
  pose proof (group_agrees_pairwise g Detector e1 e2 Hgroup Hpol H1 H2) as Hsame.
  simpl in Hsame. congruence.
Qed.

End ConsistencyFacts.

(** Scenario 4: two Experiments on [imageset_1], one on each of the
    two detectors. *)
Lemma shared_imageset_needs_one_detector_witness :
  const_call (ExperimentList.is_consistent [Detector])
    [experiment_with beam_1 detector_1 imageset_1;
     experiment_with beam_1 detector_2 imageset_1]
  = (Returned false,
     [experiment_with beam_1 detector_1 imageset_1;
      experiment_with beam_1 detector_2 imageset_1]).
Proof.
  apply (shared_imageset_needs_one_detector [Detector]
           [experiment_with beam_1 detector_1 imageset_1;
            experiment_with beam_1 detector_2 imageset_1]
           0 1 (experiment_with beam_1 detector_1 imageset_1)
           (experiment_with beam_1 detector_2 imageset_1) 20).
  - apply list_elem_of_here.
  - reflexivity.
  - reflexivity.
  - reflexivity.
  - reflexivity.
  - reflexivity.
Defined.

(** ** Slices *)

Lemma to_size_t_small (z : Z) : 0 ≤ z < 2 ^ 64 → Z.of_N (to_size_t z) = z.
Proof.
  intros Hz. unfold to_size_t. rewrite Z.mod_small by done.
  apply Z2N.id. lia.
Qed.

Section SlicingFacts.
Variable adapt : slice → N → adapted_slice.
Implicit Types (self result : list Experiment) (a : adapted_slice) (i : N).

(** Iterations that were enough stay enough. *)
Lemma slice_loop_mono self a fuel : ∀ fuel' i result o,
  (fuel ≤ fuel')%nat →
  slice_loop fuel self a i result = Some o →
  slice_loop fuel' self a i result = Some o.
Proof.
  induction fuel as [|fuel IH]; intros fuel' i result o Hle; [done |].
  destruct fuel' as [|fuel']; [lia |]. simpl.
  destruct (_ && _); [| done].
  destruct (ExperimentList.subscript i self); try done.
  apply IH. lia.
Qed.

(** The loop reads inside the list only: whatever the bounds, it ends
    by returning a list. *)
Lemma slice_loop_returns self a fuel : ∀ i result o,
  slice_loop fuel self a i result = Some o → ∃ r, o = Returned r.
Proof.
  induction fuel as [|fuel IH]; intros i result o; [done |]. simpl.
  destruct (_ && _) eqn:Hguard; [| intros [= <-]; eauto].
  apply andb_true_iff in Hguard as [_ Hi%N.ltb_lt].
  unfold ExperimentList.subscript, ExperimentList.size in *.
  destruct (lookup_lt_is_Some_2 self (N.to_nat i)) as [e He]; [lia |].
  rewrite He. apply IH.
Qed.

Lemma slice_loop_forward self a :
  forward a (ExperimentList.size self) →
  ∀ (m : nat) i,
    Z.of_N (ExperimentList.size self) - Z.of_N i ≤ Z.of_nat m →
    ∃ visited elems,
      visits (stop a) (step a) (Z.of_N (ExperimentList.size self))
        (Z.of_N i) visited
      ∧ Forall2 (λ z e, 0 ≤ z ∧ self !! Z.to_nat z = Some e) visited elems
      ∧ ∀ fuel result, (length visited < fuel)%nat →
          slice_loop fuel self a i result = Some (Returned (result ++ elems)).
Proof.
  intros (Hstart & Hstop & Hstep & Hstart0 & Hstop0 & Hstep0 & Hsize).
  unfold is_long in *.
  assert (Hstop' : Z.of_N (to_size_t (stop a)) = stop a)
    by (apply to_size_t_small; lia).
  induction m as [|m IH]; intros i Hm.
  - exists [], []. split; [apply visits_end; lia |]. split; [constructor |].
    intros [|fuel] result Hfuel; [simpl in Hfuel; lia |]. simpl.
    replace (i <? ExperimentList.size self)%N with false
      by (symmetry; apply N.ltb_ge; lia).
    by rewrite andb_false_r, app_nil_r.
  - destruct ((i <? to_size_t (stop a))%N && (i <? ExperimentList.size self)%N)
      eqn:Hguard.
    + apply andb_true_iff in Hguard as Hboth.
      destruct Hboth as [Hi1%N.ltb_lt Hi2%N.ltb_lt].
      assert (Hnext : Z.of_N (to_size_t (Z.of_N i + step a)) = Z.of_N i + step a)
        by (apply to_size_t_small; lia).
      destruct (lookup_lt_is_Some_2 self (N.to_nat i)) as [e He];
        [unfold ExperimentList.size in Hi2; lia |].
      destruct (IH (to_size_t (Z.of_N i + step a))) as (visited & elems & Hv & Hf & Hrun);
        [lia |].
      exists (Z.of_N i :: visited), (e :: elems). split; [| split].
      * apply visits_next; [lia | lia |]. by rewrite <- Hnext.
      * constructor; [| done]. split; [lia |].
        by replace (Z.to_nat (Z.of_N i)) with (N.to_nat i) by lia.
      * intros [|fuel] result Hfuel; [simpl in Hfuel; lia |].
        simpl. rewrite Hguard. unfold ExperimentList.subscript. rewrite He.
        rewrite Hrun by (simpl in Hfuel; lia).
        by rewrite <- app_assoc.
    + exists [], []. split; [| split; [constructor |]].
      * apply visits_end. apply andb_false_iff in Hguard as [H%N.ltb_ge|H%N.ltb_ge]; lia.
      * intros [|fuel] result Hfuel; [simpl in Hfuel; lia |].
        simpl. by rewrite Hguard, app_nil_r.
Qed.

(** With a step that is not zero the loop ends, whatever the bounds and
    whichever way the step goes: going up, the position passes the
    size; going down, it reaches zero and wraps to a value no list is
    as long as. *)
Lemma slice_loop_ends self a :
  is_long (step a) → step a ≠ 0 → Z.of_N (ExperimentList.size self) < 2 ^ 63 →
  ∀ (m : nat) i,
    ((i < ExperimentList.size self)%N →
     if decide (0 < step a)
     then Z.of_N (ExperimentList.size self) - Z.of_N i ≤ Z.of_nat m
     else Z.of_N i < Z.of_nat m) →
    ∃ elems, ∀ fuel result, (m < fuel)%nat →
      slice_loop fuel self a i result = Some (Returned (result ++ elems)).
Proof.
  unfold is_long. intros Hstep Hnz Hsize.
  induction m as [|m IH]; intros i Hm.
  - exists []. intros [|fuel] result Hfuel; [lia |]. simpl.
    destruct (i <? ExperimentList.size self)%N eqn:Hi.
    + apply N.ltb_lt in Hi. specialize (Hm Hi). destruct (decide (0 < step a)); lia.
    + by rewrite andb_false_r, app_nil_r.
  - destruct ((i <? to_size_t (stop a))%N && (i <? ExperimentList.size self)%N)
      eqn:Hguard.
    + apply andb_true_iff in Hguard as Hboth.
      destruct Hboth as [_ Hi%N.ltb_lt]. specialize (Hm Hi).
      destruct (lookup_lt_is_Some_2 self (N.to_nat i)) as [e He];
        [unfold ExperimentList.size in Hi; lia |].
      destruct (IH (to_size_t (Z.of_N i + step a))) as (elems & Hrun).
      { intros Hnext. unfold to_size_t in *.
        pose proof (Z.mod_pos_bound (Z.of_N i + step a) (2 ^ 64) ltac:(lia)) as Hb.
        destruct (decide (0 < step a)) as [Hup|Hdown].
        - rewrite Z.mod_small in * by lia. lia.
        - destruct (decide (0 ≤ Z.of_N i + step a)) as [Hpos|Hneg].
          + rewrite Z.mod_small in * by lia. lia.
          + exfalso.
            assert (Hwrap : (Z.of_N i + step a) mod 2 ^ 64
                            = Z.of_N i + step a + 2 ^ 64)
              by (symmetry; apply Z.mod_unique with (-1); lia).
            rewrite Hwrap in Hnext. lia. }
      exists (e :: elems). intros [|fuel] result Hfuel; [lia |].
      simpl. rewrite Hguard. unfold ExperimentList.subscript. rewrite He.
      rewrite Hrun by lia. by rewrite <- app_assoc.
    + exists []. intros [|fuel] result Hfuel; [lia |].
      simpl. by rewrite Hguard, app_nil_r.
Qed.

End SlicingFacts.

(** * Further properties of the interface *)

(** ** Scalar access: reading back, and what a write or a removal
    leaves in place *)

(** What [get] gives at any index: the element there, or [IndexError];
    the list stays. *)
Lemma getitem_lookup (self : ExperimentList.t) (m : N) :
  experiment_list_getitem m self
  = (match self !! N.to_nat m with
     | Some e => Returned e
     | None => Raised IndexError
     end, self).
Proof.
  unfold experiment_list_getitem.
  unfold mbind, M_bind, bind, get, raise_index_error, raise, mret, M_ret, ret, lift.
  unfold ExperimentList.subscript, ExperimentList.size. simpl.
  destruct (decide (N.of_nat (length self) ≤ m)%N) as [Hge|Hlt].
  - by rewrite (proj2 (lookup_ge_None self (N.to_nat m))) by lia.
  - destruct (lookup_lt_is_Some_2 self (N.to_nat m)) as [e He]; [lia |].
    by rewrite He.
Qed.

(** [set(n, item)] inside the list: [get(n)] then returns [item], the
    size is what it was, and [get] at every other index, in range or
    not, gives what it gave before. *)
Theorem setitem_then_getitem (self : ExperimentList.t) (n : N) (item : Experiment) :
  (n < ExperimentList.size self)%N →
  ∃ self',
    experiment_list_setitem n item self = (Returned tt, self')
    ∧ ExperimentList.size self' = ExperimentList.size self
    ∧ experiment_list_getitem n self' = (Returned item, self')
    ∧ ∀ m, m ≠ n →
        fst (experiment_list_getitem m self') = fst (experiment_list_getitem m self).
Proof.
  intros Hn.
  assert (Hlt : (N.to_nat n < length self)%nat)
    by (unfold ExperimentList.size in Hn; lia).
  exists (<[N.to_nat n := item]> self). split; [| split; [| split]].
  - unfold experiment_list_setitem.
    unfold mbind, M_bind, bind, get, raise_index_error, raise, mret, M_ret, ret.
    simpl. rewrite decide_False by lia.
    unfold ExperimentList.subscript_assign. by rewrite decide_True.
  - unfold ExperimentList.size. by rewrite length_insert.
  - by rewrite getitem_lookup, list_lookup_insert_eq.
  - intros m Hm. rewrite !getitem_lookup. simpl.
    by rewrite list_lookup_insert_ne by lia.
Qed.

Lemma setitem_then_getitem_witness :
  ∃ self',
    experiment_list_setitem 1 (experiment_with beam_2 detector_1 imageset_1)
      three_experiments = (Returned tt, self')
    ∧ experiment_list_getitem 1 self'
      = (Returned (experiment_with beam_2 detector_1 imageset_1), self')
    ∧ fst (experiment_list_getitem 7 self') = Raised IndexError.
Proof.
  destruct (setitem_then_getitem three_experiments 1
              (experiment_with beam_2 detector_1 imageset_1))
    as (self' & Hset & _ & Hget & Hother).
  - reflexivity.
  - exists self'. split; [exact Hset |]. split; [exact Hget |].
    rewrite (Hother 7%N); [reflexivity | discriminate].
Defined.

(** [delete(n)] inside the list: the size goes down by one, [get]
    below [n] gives what it gave, and [get] at [m >= n] gives what
    [get(m + 1)] gave before, a refusal included. *)
Theorem delitem_shifts_down (self : ExperimentList.t) (n : N) :
  (n < ExperimentList.size self)%N →
  ∃ self',
    experiment_list_delitem n self = (Returned tt, self')
    ∧ N.succ (ExperimentList.size self') = ExperimentList.size self
    ∧ ∀ m,
        fst (experiment_list_getitem m self')
        = fst (experiment_list_getitem (if decide (m < n)%N then m else N.succ m) self).
Proof.
  intros Hn.
  assert (Hlt : (N.to_nat n < length self)%nat)
    by (unfold ExperimentList.size in Hn; lia).
  exists (delete (N.to_nat n) self). split; [| split].
  - unfold experiment_list_delitem.
    unfold mbind, M_bind, bind, get, raise_index_error, raise, mret, M_ret, ret.
    simpl. rewrite decide_False by lia.
    unfold ExperimentList.erase. by rewrite decide_True.
  - unfold ExperimentList.size. rewrite length_delete by by apply lookup_lt_is_Some_2.
    lia.
  - intros m. rewrite !getitem_lookup. simpl.
    destruct (decide (m < n)%N) as [Hm|Hm].
    + by rewrite list_lookup_delete_lt by lia.
    + rewrite list_lookup_delete_ge by lia.
      by replace (N.to_nat (N.succ m)) with (S (N.to_nat m)) by lia.
Qed.

(** Scenario 2 of a list of three: after [delete(0)] the old second
    element is first and the old last index is refused. *)
Lemma delitem_shifts_down_witness :
  ∃ self',
    experiment_list_delitem 0 three_experiments = (Returned tt, self')
    ∧ fst (experiment_list_getitem 0 self')
      = Returned (experiment_with beam_1' detector_1 PyNone)
    ∧ fst (experiment_list_getitem 2 self') = Raised IndexError.
Proof.
  destruct (delitem_shifts_down three_experiments 0)
    as (self' & Hdel & _ & Hget).
  - reflexivity.
  - exists self'. split; [exact Hdel |]. split.
    + rewrite (Hget 0%N). reflexivity.
    + rewrite (Hget 2%N). reflexivity.
Defined.

(** ** Slices that run forward: how many elements, which ones, in which
    order *)

Lemma quotient_of_nothing_left (x s : Z) :
  0 < s → x ≤ 0 → Z.max 0 ((x + s - 1) / s) = 0.
Proof.
  intros Hs Hx. apply Z.max_l.
  assert ((x + s - 1) / s < 1) by (apply Z.div_lt_upper_bound; lia). lia.
Qed.

Lemma quotient_of_one_more (x s : Z) :
  0 < s → 0 < x → Z.max 0 ((x + s - 1) / s) = 1 + Z.max 0 ((x - s + s - 1) / s).
Proof.
  intros Hs Hx.
  replace (x + s - 1) with (x - 1 + 1 * s) by lia.
  replace (x - s + s - 1) with (x - 1) by lia.
  rewrite Z.div_add by lia.
  assert (0 ≤ (x - 1) / s) by (apply Z.div_pos; lia). lia.
Qed.

Section ForwardSlices.
Variable adapt : slice → N → adapted_slice.
Implicit Types (self result : list Experiment) (a : adapted_slice) (i : N).

(** The loop on a forward slice, from position [i]: the elements it
    appends, counted, located, and in the order of the list. *)
Lemma slice_loop_forward_shape self a :
  forward a (ExperimentList.size self) →
  ∀ (m : nat) i,
    Z.of_N (ExperimentList.size self) - Z.of_N i ≤ Z.of_nat m →
    ∃ elems,
      (∀ fuel result, (m < fuel)%nat →
         slice_loop fuel self a i result = Some (Returned (result ++ elems)))
      ∧ Z.of_nat (length elems)
        = Z.max 0 ((Z.min (stop a) (Z.of_N (ExperimentList.size self))
                    - Z.of_N i + step a - 1) / step a)
      ∧ (∀ (k : nat) e, elems !! k = Some e →
           self !! (N.to_nat i + k * Z.to_nat (step a))%nat = Some e)
      ∧ elems `sublist_of` drop (N.to_nat i) self.
Proof.
  intros (Hstart & Hstop & Hstep & Hstart0 & Hstop0 & Hstep0 & Hsize).
  unfold is_long in *.
  assert (Hstop' : Z.of_N (to_size_t (stop a)) = stop a)
    by (apply to_size_t_small; lia).
  assert (Hdone : ∀ (m : nat) i,
            ((i <? to_size_t (stop a))%N && (i <? ExperimentList.size self)%N) = false →
            ∃ elems,
              (∀ fuel result, (m < fuel)%nat →
                 slice_loop fuel self a i result = Some (Returned (result ++ elems)))
              ∧ Z.of_nat (length elems)
                = Z.max 0 ((Z.min (stop a) (Z.of_N (ExperimentList.size self))
                            - Z.of_N i + step a - 1) / step a)
              ∧ (∀ (k : nat) e, elems !! k = Some e →
                   self !! (N.to_nat i + k * Z.to_nat (step a))%nat = Some e)
              ∧ elems `sublist_of` drop (N.to_nat i) self).
  { intros m i Hguard. exists []. split; [| split; [| split]].
    - intros [|fuel] result Hfuel; [lia |]. simpl. by rewrite Hguard, app_nil_r.
    - simpl. symmetry.
      replace (Z.min (stop a) (Z.of_N (ExperimentList.size self)) - Z.of_N i
               + step a - 1)
        with ((Z.min (stop a) (Z.of_N (ExperimentList.size self)) - Z.of_N i)
              + step a - 1) by lia.
      apply quotient_of_nothing_left; [done |].
      apply andb_false_iff in Hguard as [H%N.ltb_ge|H%N.ltb_ge]; lia.
    - intros k e Hk. by rewrite lookup_nil in Hk.
    - apply sublist_nil_l. }
  induction m as [|m IH]; intros i Hm.
  - apply Hdone. replace (i <? ExperimentList.size self)%N with false
      by (symmetry; apply N.ltb_ge; lia).
    apply andb_false_r.
  - destruct ((i <? to_size_t (stop a))%N && (i <? ExperimentList.size self)%N)
      eqn:Hguard; [| by apply Hdone].
    apply andb_true_iff in Hguard as Hboth.
    destruct Hboth as [Hi1%N.ltb_lt Hi2%N.ltb_lt].
    assert (Hnext : Z.of_N (to_size_t (Z.of_N i + step a)) = Z.of_N i + step a)
      by (apply to_size_t_small; lia).
    destruct (lookup_lt_is_Some_2 self (N.to_nat i)) as [e He];
      [unfold ExperimentList.size in Hi2; lia |].
    destruct (IH (to_size_t (Z.of_N i + step a)))
      as (elems & Hrun & Hlen & Hat & Hsub); [lia |].
    assert (Hnat : N.to_nat (to_size_t (Z.of_N i + step a))
                   = (S (N.to_nat i) + (Z.to_nat (step a) - 1))%nat) by lia.
    exists (e :: elems). split; [| split; [| split]].
    + intros [|fuel] result Hfuel; [lia |].
      simpl. rewrite Hguard. unfold ExperimentList.subscript. rewrite He.
      rewrite Hrun by lia. by rewrite <- app_assoc.
    + rewrite Hnext in Hlen. simpl length. rewrite Nat2Z.inj_succ, Hlen.
      rewrite (quotient_of_one_more
                 (Z.min (stop a) (Z.of_N (ExperimentList.size self)) - Z.of_N i)
                 (step a)) by lia.
      replace (Z.min (stop a) (Z.of_N (ExperimentList.size self))
               - (Z.of_N i + step a) + step a - 1)
        with (Z.min (stop a) (Z.of_N (ExperimentList.size self)) - Z.of_N i
              - step a + step a - 1) by lia.
      lia.
    + intros [|k] e' Hk; simpl in Hk.
      * injection Hk as <-. by rewrite Nat.add_0_r.
      * apply Hat in Hk. rewrite <- Hk. f_equal. rewrite Hnat. lia.
    + rewrite (drop_S self e (N.to_nat i) He). apply sublist_skip.
      etrans; [exact Hsub |]. rewrite Hnat, <- drop_drop. apply sublist_drop.
Qed.

End ForwardSlices.

Section ForwardSliceFacts.
Variable adapt : slice → N → adapted_slice.

(** A forward slice has [ceil((min(stop, size) - start) / step)]
    elements, none when that is negative, and its [k]-th element is the
    one that [get] returns at index [start + k * step]. *)
Theorem forward_slice_elements (self : ExperimentList.t) (s : slice) :
  forward (adapt s (ExperimentList.size self)) (ExperimentList.size self) →
  ∃ result,
    (∀ fuel, (length self < fuel)%nat →
       experiment_list_getitem_slice adapt fuel self s = Some (Returned result))
    ∧ Z.of_nat (length result)
      = Z.max 0 ((Z.min (stop (adapt s (ExperimentList.size self)))
                    (Z.of_N (ExperimentList.size self))
                  - start (adapt s (ExperimentList.size self))
                  + step (adapt s (ExperimentList.size self)) - 1)
                 / step (adapt s (ExperimentList.size self)))
    ∧ ∀ (k : nat) e, result !! k = Some e →
        experiment_list_getitem
          (Z.to_N (start (adapt s (ExperimentList.size self))
                   + Z.of_nat k * step (adapt s (ExperimentList.size self)))) self
        = (Returned e, self).
Proof.
  unfold experiment_list_getitem_slice.
  set (a := adapt s (ExperimentList.size self)). intros Hfw.
  assert (Hstart : Z.of_N (to_size_t (start a)) = start a).
  { apply to_size_t_small. destruct Hfw as (Hs & _ & _ & Hs0 & _).
    unfold is_long in Hs. lia. }
  destruct (slice_loop_forward_shape self a Hfw (length self) (to_size_t (start a)))
    as (result & Hrun & Hlen & Hat & _);
    [unfold ExperimentList.size; lia |].
  exists result. split; [| split].
  - intros fuel Hfuel. by rewrite Hrun.
  - by rewrite <- Hstart.
  - intros k e Hk. rewrite getitem_lookup. apply Hat in Hk.
    destruct Hfw as (_ & _ & _ & Hs0 & _ & Hstep0 & _).
    replace (N.to_nat (Z.to_N (start a + Z.of_nat k * step a)))
      with (N.to_nat (to_size_t (start a)) + k * Z.to_nat (step a))%nat;
      [by rewrite Hk |].
    rewrite Z_N_nat, Z2Nat.inj_add, Z2Nat.inj_mul, Nat2Z.id by nia. lia.
Qed.

(** A forward slice keeps the order of the list: what is returned is
    the list with some elements left out. *)
Theorem forward_slice_keeps_order (self : ExperimentList.t) (s : slice) :
  forward (adapt s (ExperimentList.size self)) (ExperimentList.size self) →
  ∀ fuel o, experiment_list_getitem_slice adapt fuel self s = Some o →
    ∃ result, o = Returned result ∧ result `sublist_of` self.
Proof.
  unfold experiment_list_getitem_slice.
  set (a := adapt s (ExperimentList.size self)). intros Hfw fuel o Ho.
  destruct (slice_loop_forward_shape self a Hfw (length self) (to_size_t (start a)))
    as (result & Hrun & _ & _ & Hsub);
    [unfold ExperimentList.size; lia |].
  exists result. split.
  - pose proof (slice_loop_mono self a fuel (fuel + S (length self))
                  _ _ _ ltac:(lia) Ho) as Hbig.
    rewrite Hrun in Hbig by lia. by injection Hbig as <-.
  - etrans; [exact Hsub |]. apply sublist_drop.
Qed.

(** A forward slice of step one is the stretch of the list from
    [start] up to [stop]: all of it when [start] is zero and [stop]
    reaches the size. *)
Theorem unit_step_slice_is_a_stretch (self : ExperimentList.t) (s : slice) :
  forward (adapt s (ExperimentList.size self)) (ExperimentList.size self) →
  step (adapt s (ExperimentList.size self)) = 1 →
  ∀ fuel, (length self < fuel)%nat →
    experiment_list_getitem_slice adapt fuel self s
    = Some (Returned
              (drop (Z.to_nat (start (adapt s (ExperimentList.size self))))
                 (take (Z.to_nat (stop (adapt s (ExperimentList.size self)))) self))).
Proof.
  unfold experiment_list_getitem_slice.
  set (a := adapt s (ExperimentList.size self)). intros Hfw Hone fuel Hfuel.
  assert (Hstart : Z.of_N (to_size_t (start a)) = start a).
  { apply to_size_t_small. destruct Hfw as (Hs & _ & _ & Hs0 & _).
    unfold is_long in Hs. lia. }
  destruct (slice_loop_forward_shape self a Hfw (length self) (to_size_t (start a)))
    as (result & Hrun & Hlen & Hat & _);
    [unfold ExperimentList.size; lia |].
  rewrite Hrun by done. simpl. do 2 f_equal.
  destruct Hfw as (_ & _ & _ & Hs0 & Hstop0 & _).
  rewrite Hstart, Hone in Hlen.
  replace (Z.min (stop a) (Z.of_N (ExperimentList.size self)) - start a + 1 - 1)
    with (Z.min (stop a) (Z.of_N (ExperimentList.size self)) - start a) in Hlen
    by lia.
  rewrite Z.div_1_r in Hlen. unfold ExperimentList.size in Hlen.
  apply list_eq. intros k. rewrite lookup_drop.
  destruct (decide (k < length result)%nat) as [Hk|Hk].
  - destruct (lookup_lt_is_Some_2 result k Hk) as [e He].
    rewrite He. apply Hat in He. rewrite Hone in He.
    rewrite lookup_take_lt by lia. rewrite <- He. f_equal. lia.
  - rewrite (proj2 (lookup_ge_None result k)) by lia.
    symmetry. destruct (decide (Z.to_nat (start a) + k < Z.to_nat (stop a))%nat).
    + rewrite lookup_take_lt by done. apply lookup_ge_None. lia.
    + apply lookup_take_ge. lia.
Qed.

End ForwardSliceFacts.

(** The slice [0:5:2] of three Experiments has two elements, those of
    [get(0)] and [get(2)]. *)
Lemma forward_slice_elements_witness :
  ∃ result,
    experiment_list_getitem_slice example_adapt 4 three_experiments example_slice
    = Some (Returned result)
    ∧ Z.of_nat (length result) = 2
    ∧ ∀ e, result !! 1%nat = Some e →
        experiment_list_getitem 2 three_experiments = (Returned e, three_experiments).
Proof.
  destruct (forward_slice_elements example_adapt three_experiments example_slice)
    as (result & Hrun & Hlen & Hat).
  - vm_compute. repeat split; discriminate.
  - exists result. split; [apply Hrun; vm_compute; lia |].
    split; [exact Hlen |]. intros e He. exact (Hat 1%nat e He).
Defined.

Lemma forward_slice_keeps_order_witness :
  [experiment_with beam_1 detector_1 PyNone;
   experiment_with beam_2 detector_2 PyNone] `sublist_of` three_experiments.
Proof.
  destruct (forward_slice_keeps_order example_adapt three_experiments example_slice)
    with (fuel := 4%nat)
         (o := Returned [experiment_with beam_1 detector_1 PyNone;
                         experiment_with beam_2 detector_2 PyNone])
    as (result & Ho & Hsub).
  - vm_compute. repeat split; discriminate.
  - reflexivity.
  - injection Ho as ->. exact Hsub.
Defined.

(** The slice [1:] of three Experiments, adapted to [(1, 3, 1)]: the
    last two. *)
Lemma unit_step_slice_is_a_stretch_witness :
  experiment_list_getitem_slice example_adapt 4 three_experiments
    {| slice_start := Some 1; slice_stop := None; slice_step := None |}
  = Some (Returned [experiment_with beam_1' detector_1 PyNone;
                    experiment_with beam_2 detector_2 PyNone]).
Proof.
  apply (unit_step_slice_is_a_stretch example_adapt three_experiments
           {| slice_start := Some 1; slice_stop := None; slice_step := None |}).
  - vm_compute. repeat split; discriminate.
  - reflexivity.
  - vm_compute. lia.
Defined.

(** ** Slices at the edges: a zero step, a step backward, and what any
    slice is made of *)

Lemma to_size_t_fixes (i : N) : (i < 2 ^ 64)%N → to_size_t (Z.of_N i) = i.
Proof.
  intros Hi. unfold to_size_t. rewrite Z.mod_small by lia. apply N2Z.id.
Qed.

Lemma to_size_t_bound (z : Z) : (to_size_t z < 2 ^ 64)%N.
Proof.
  unfold to_size_t.
  pose proof (Z.mod_pos_bound z (2 ^ 64) ltac:(lia)). lia.
Qed.

Section EdgeSlices.
Variable adapt : slice → N → adapted_slice.
Implicit Types (self result : list Experiment) (a : adapted_slice) (i : N).

(** With a zero step the position never moves: once in, the loop
    stays in. *)
Lemma slice_loop_zero_step self a i :
  step a = 0 → (i < 2 ^ 64)%N →
  ((i <? to_size_t (stop a))%N && (i <? ExperimentList.size self)%N) = true →
  ∀ fuel result, slice_loop fuel self a i result = None.
Proof.
  intros Hzero Hi Hguard fuel. induction fuel as [|fuel IH]; intros result; [done |].
  simpl. rewrite Hguard.
  apply andb_true_iff in Hguard as [_ Hin%N.ltb_lt].
  unfold ExperimentList.subscript, ExperimentList.size in *.
  destruct (lookup_lt_is_Some_2 self (N.to_nat i)) as [e He]; [lia |].
  rewrite He, Hzero, Z.add_0_r, to_size_t_fixes by done. apply IH.
Qed.

(** A slice whose adapted step is zero: when [start], as the loop
    reads it, is below both [stop] and the size, the call never
    returns; otherwise it returns the empty list at once. *)
Theorem zero_step_slice (self : ExperimentList.t) (s : slice) :
  step (adapt s (ExperimentList.size self)) = 0 →
  ((to_size_t (start (adapt s (ExperimentList.size self)))
    < to_size_t (stop (adapt s (ExperimentList.size self))))%N
   ∧ (to_size_t (start (adapt s (ExperimentList.size self)))
      < ExperimentList.size self)%N →
   ∀ fuel, experiment_list_getitem_slice adapt fuel self s = None)
  ∧ (¬ ((to_size_t (start (adapt s (ExperimentList.size self)))
         < to_size_t (stop (adapt s (ExperimentList.size self))))%N
        ∧ (to_size_t (start (adapt s (ExperimentList.size self)))
           < ExperimentList.size self)%N) →
     ∀ fuel, (0 < fuel)%nat →
       experiment_list_getitem_slice adapt fuel self s = Some (Returned [])).
Proof.
  unfold experiment_list_getitem_slice.
  set (a := adapt s (ExperimentList.size self)). intros Hzero. split.
  - intros [H1 H2] fuel. apply slice_loop_zero_step; [done | apply to_size_t_bound |].
    apply andb_true_iff. split; by apply N.ltb_lt.
  - intros Hout [|fuel] Hfuel; [lia |]. simpl.
    destruct (_ && _) eqn:Hguard; [| done].
    exfalso. apply Hout. apply andb_true_iff in Hguard as [H1 H2].
    split; by apply N.ltb_lt.
Qed.

(** The loop on a step backward, from a position inside the list and
    below [stop] as the loop reads it: it goes down to the last
    position that is not negative, then wraps and leaves. *)
Lemma slice_loop_backward self a :
  is_long (step a) → step a < 0 → Z.of_N (ExperimentList.size self) < 2 ^ 63 →
  ∀ (m : nat) i,
    (N.to_nat i ≤ m)%nat →
    (i < ExperimentList.size self)%N → (i < to_size_t (stop a))%N →
    ∃ elems,
      (∀ fuel result, (S m < fuel)%nat →
         slice_loop fuel self a i result = Some (Returned (result ++ elems)))
      ∧ Z.of_nat (length elems) = Z.of_N i / (- step a) + 1
      ∧ ∀ (k : nat) e, elems !! k = Some e →
          self !! Z.to_nat (Z.of_N i + Z.of_nat k * step a) = Some e.
Proof.
  unfold is_long. intros Hstep Hneg Hsize.
  assert (Hlast : ∀ (m : nat) i,
            (i < ExperimentList.size self)%N → (i < to_size_t (stop a))%N →
            Z.of_N i + step a < 0 →
            ∃ elems,
              (∀ fuel result, (S m < fuel)%nat →
                 slice_loop fuel self a i result = Some (Returned (result ++ elems)))
              ∧ Z.of_nat (length elems) = Z.of_N i / (- step a) + 1
              ∧ ∀ (k : nat) e, elems !! k = Some e →
                  self !! Z.to_nat (Z.of_N i + Z.of_nat k * step a) = Some e).
  { intros m i Hi Hstop Hout.
    assert (Hguard : ((i <? to_size_t (stop a))%N
                      && (i <? ExperimentList.size self)%N) = true)
      by (apply andb_true_iff; split; by apply N.ltb_lt).
    destruct (lookup_lt_is_Some_2 self (N.to_nat i)) as [e He];
      [unfold ExperimentList.size in Hi; lia |].
    assert (Hwrap : (Z.of_N i + step a) mod 2 ^ 64 = Z.of_N i + step a + 2 ^ 64)
      by (symmetry; apply Z.mod_unique with (-1); lia).
    exists [e]. split; [| split].
    - intros [|[|fuel]] result Hfuel; [lia | lia |].
      simpl. rewrite Hguard. unfold ExperimentList.subscript. rewrite He.
      replace (to_size_t (Z.of_N i + step a) <? ExperimentList.size self)%N
        with false
        by (symmetry; apply N.ltb_ge; unfold to_size_t; rewrite Hwrap; lia).
      by rewrite andb_false_r.
    - simpl. rewrite Z.div_small by lia. lia.
    - intros [|k] e' Hk; simpl in Hk.
      + injection Hk as <-. rewrite <- He. f_equal. lia.
      + by rewrite lookup_nil in Hk. }
  induction m as [|m IH]; intros i Hm Hi Hstop;
    destruct (decide (0 ≤ Z.of_N i + step a)) as [Hin|Hout];
    [lia | apply Hlast; [done | done | lia] | | apply Hlast; [done | done | lia]].
  assert (Hguard : ((i <? to_size_t (stop a))%N
                    && (i <? ExperimentList.size self)%N) = true)
    by (apply andb_true_iff; split; by apply N.ltb_lt).
  destruct (lookup_lt_is_Some_2 self (N.to_nat i)) as [e He];
    [unfold ExperimentList.size in Hi; lia |].
  assert (Hnext : Z.of_N (to_size_t (Z.of_N i + step a)) = Z.of_N i + step a)
    by (apply to_size_t_small; lia).
  destruct (IH (to_size_t (Z.of_N i + step a)))
    as (elems & Hrun & Hlen & Hat); [lia | lia | lia |].
  exists (e :: elems). split; [| split].
  - intros [|fuel] result Hfuel; [lia |].
    simpl. rewrite Hguard. unfold ExperimentList.subscript. rewrite He.
    rewrite Hrun by lia. by rewrite <- app_assoc.
  - simpl length. rewrite Nat2Z.inj_succ, Hlen, Hnext.
    replace (Z.of_N i + step a) with (Z.of_N i + (-1) * (- step a)) by lia.
    rewrite Z.div_add by lia. lia.
  - intros [|k] e' Hk; simpl in Hk.
    + injection Hk as <-. rewrite <- He. f_equal. lia.
    + apply Hat in Hk. rewrite <- Hk. f_equal. rewrite Hnext. lia.
Qed.

(** A slice whose adapted step is negative, with [start] inside the
    list and below [stop] as the loop reads it (a negative [stop]
    reads as [2^64 + stop]): the call returns the [start / -step + 1]
    elements that [get] returns at [start], [start + step], ..., down
    to the last index that is not negative. *)
Theorem backward_slice_elements (self : ExperimentList.t) (s : slice) :
  is_long (step (adapt s (ExperimentList.size self))) →
  step (adapt s (ExperimentList.size self)) < 0 →
  Z.of_N (ExperimentList.size self) < 2 ^ 63 →
  0 ≤ start (adapt s (ExperimentList.size self))
    < Z.of_N (ExperimentList.size self) →
  start (adapt s (ExperimentList.size self))
    < Z.of_N (to_size_t (stop (adapt s (ExperimentList.size self)))) →
  ∃ result,
    (∀ fuel, (length self < fuel)%nat →
       experiment_list_getitem_slice adapt fuel self s = Some (Returned result))
    ∧ Z.of_nat (length result)
      = start (adapt s (ExperimentList.size self))
        / (- step (adapt s (ExperimentList.size self))) + 1
    ∧ ∀ (k : nat) e, result !! k = Some e →
        experiment_list_getitem
          (Z.to_N (start (adapt s (ExperimentList.size self))
                   + Z.of_nat k * step (adapt s (ExperimentList.size self)))) self
        = (Returned e, self).
Proof.
  unfold experiment_list_getitem_slice.
  set (a := adapt s (ExperimentList.size self)).
  intros Hstep Hneg Hsize Hstart Hstop.
  assert (Hs : Z.of_N (to_size_t (start a)) = start a)
    by (apply to_size_t_small; lia).
  destruct (slice_loop_backward self a Hstep Hneg Hsize
              (length self - 1) (to_size_t (start a)))
    as (result & Hrun & Hlen & Hat).
  - unfold ExperimentList.size in Hstart. lia.
  - lia.
  - lia.
  - exists result. split; [| split].
    + intros fuel Hfuel. rewrite Hrun; [done |].
      unfold ExperimentList.size in Hstart. lia.
    + by rewrite <- Hs.
    + intros k e Hk. rewrite getitem_lookup. apply Hat in Hk.
      rewrite Hs in Hk. by rewrite Z_N_nat, Hk.
Qed.

End EdgeSlices.

(** An adaptation to [(0, 1, 0)] keeps the call on a list of three
    from returning; one to [(3, 1, 0)], with [start] at the size, gives
    the empty list. *)
Lemma zero_step_slice_witness :
  (∀ fuel,
     experiment_list_getitem_slice
       (λ _ _, {| start := 0; stop := 1; step := 0 |})
       fuel three_experiments example_slice = None)
  ∧ experiment_list_getitem_slice
      (λ _ _, {| start := 3; stop := 1; step := 0 |})
      1 three_experiments example_slice = Some (Returned []).
Proof.
  split.
  - apply (zero_step_slice (λ _ _, {| start := 0; stop := 1; step := 0 |})
             three_experiments example_slice).
    + reflexivity.
    + vm_compute. split; reflexivity.
  - apply (zero_step_slice (λ _ _, {| start := 3; stop := 1; step := 0 |})
             three_experiments example_slice).
    + reflexivity.
    + vm_compute. intros [H _]. discriminate H.
    + lia.
Defined.

(** An adaptation to [(2, -1, -1)] on a list of three gives three
    elements, the last of which is that of [get(0)]. *)
Lemma backward_slice_elements_witness :
  ∃ result,
    experiment_list_getitem_slice
      (λ _ _, {| start := 2; stop := -1; step := -1 |})
      4 three_experiments example_slice = Some (Returned result)
    ∧ Z.of_nat (length result) = 3
    ∧ ∀ e, result !! 2%nat = Some e →
        experiment_list_getitem 0 three_experiments = (Returned e, three_experiments).
Proof.
  destruct (backward_slice_elements
              (λ _ _, {| start := 2; stop := -1; step := -1 |})
              three_experiments example_slice)
    as (result & Hrun & Hlen & Hat).
  - vm_compute. split; [discriminate | reflexivity].
  - reflexivity.
  - reflexivity.
  - vm_compute. split; [discriminate | reflexivity].
  - reflexivity.
  - exists result. split; [apply Hrun; vm_compute; lia |].
    split; [exact Hlen |]. intros e He. exact (Hat 2%nat e He).
Defined.

Section AnySlice.
Variable adapt : slice → N → adapted_slice.
Implicit Types (self result : list Experiment) (a : adapted_slice) (i : N).

(** What the loop appends was read from the list. *)
Lemma slice_loop_reads_self self a fuel : ∀ i result o,
  slice_loop fuel self a i result = Some o →
  ∃ elems, o = Returned (result ++ elems) ∧ Forall (λ e, e ∈ self) elems.
Proof.
  induction fuel as [|fuel IH]; intros i result o; [done |]. simpl.
  destruct (_ && _) eqn:Hguard.
  - apply andb_true_iff in Hguard as [_ Hi%N.ltb_lt].
    unfold ExperimentList.subscript, ExperimentList.size in *.
    destruct (lookup_lt_is_Some_2 self (N.to_nat i)) as [e He]; [lia |].
    rewrite He. intros Ho. apply IH in Ho as (elems & -> & Hall).
    exists (e :: elems). split.
    + simpl. by rewrite <- app_assoc.
    + constructor; [by eapply list_elem_of_lookup_2 | done].
  - intros [= <-]. exists []. by rewrite app_nil_r.
Qed.

(** With a step that is not zero the loop appends at most as many
    elements as the list has. *)
Lemma slice_loop_ends_short self a :
  is_long (step a) → step a ≠ 0 → Z.of_N (ExperimentList.size self) < 2 ^ 63 →
  ∀ (m : nat) i,
    ((i < ExperimentList.size self)%N →
     if decide (0 < step a)
     then Z.of_N (ExperimentList.size self) - Z.of_N i ≤ Z.of_nat m
     else Z.of_N i < Z.of_nat m) →
    ∃ elems,
      (length elems ≤ m)%nat
      ∧ ∀ fuel result, (m < fuel)%nat →
          slice_loop fuel self a i result = Some (Returned (result ++ elems)).
Proof.
  unfold is_long. intros Hstep Hnz Hsize.
  induction m as [|m IH]; intros i Hm.
  - exists []. split; [done |]. intros [|fuel] result Hfuel; [lia |]. simpl.
    destruct (i <? ExperimentList.size self)%N eqn:Hi.
    + apply N.ltb_lt in Hi. specialize (Hm Hi). destruct (decide (0 < step a)); lia.
    + by rewrite andb_false_r, app_nil_r.
  - destruct ((i <? to_size_t (stop a))%N && (i <? ExperimentList.size self)%N)
      eqn:Hguard.
    + apply andb_true_iff in Hguard as Hboth.
      destruct Hboth as [_ Hi%N.ltb_lt]. specialize (Hm Hi).
      destruct (lookup_lt_is_Some_2 self (N.to_nat i)) as [e He];
        [unfold ExperimentList.size in Hi; lia |].
      destruct (IH (to_size_t (Z.of_N i + step a))) as (elems & Hshort & Hrun).
      { intros Hnext. unfold to_size_t in *.
        pose proof (Z.mod_pos_bound (Z.of_N i + step a) (2 ^ 64) ltac:(lia)) as Hb.
        destruct (decide (0 < step a)) as [Hup|Hdown].
        - rewrite Z.mod_small in * by lia. lia.
        - destruct (decide (0 ≤ Z.of_N i + step a)) as [Hpos|Hneg].
          + rewrite Z.mod_small in * by lia. lia.
          + exfalso.
            assert (Hwrap : (Z.of_N i + step a) mod 2 ^ 64
                            = Z.of_N i + step a + 2 ^ 64)
              by (symmetry; apply Z.mod_unique with (-1); lia).
            rewrite Hwrap in Hnext. lia. }
      exists (e :: elems). split; [simpl; lia |].
      intros [|fuel] result Hfuel; [lia |].
      simpl. rewrite Hguard. unfold ExperimentList.subscript. rewrite He.
      rewrite Hrun by lia. by rewrite <- app_assoc.
    + exists []. split; [simpl; lia |]. intros [|fuel] result Hfuel; [lia |].
      simpl. by rewrite Hguard, app_nil_r.
Qed.

(** Whatever the adapted bounds and the step, zero included, a slice
    that is returned holds only Experiments of the list and is not
    longer than the list. *)
Theorem slice_is_made_of_the_list (self : ExperimentList.t) (s : slice) :
  is_long (step (adapt s (ExperimentList.size self))) →
  Z.of_N (ExperimentList.size self) < 2 ^ 63 →
  ∀ fuel o, experiment_list_getitem_slice adapt fuel self s = Some o →
    ∃ result,
      o = Returned result
      ∧ (length result ≤ length self)%nat
      ∧ ∀ e, e ∈ result → e ∈ self.
Proof.
  unfold experiment_list_getitem_slice.
  set (a := adapt s (ExperimentList.size self)). intros Hstep Hsize fuel o Ho.
  destruct (slice_loop_reads_self self a fuel _ _ _ Ho) as (result & -> & Hall).
  simpl in *. exists result. split; [done |]. split.
  - destruct (decide (step a = 0)) as [Hzero|Hnz].
    + destruct ((to_size_t (start a) <? to_size_t (stop a))%N
                && (to_size_t (start a) <? ExperimentList.size self)%N) eqn:Hguard.
      * by rewrite (slice_loop_zero_step self a _ Hzero
                      (to_size_t_bound _) Hguard) in Ho.
      * destruct fuel as [|fuel]; [done |]. simpl in Ho. rewrite Hguard in Ho.
        injection Ho as <-. simpl. lia.
    + destruct (slice_loop_ends_short self a Hstep Hnz Hsize (length self)
                  (to_size_t (start a))) as (elems & Hshort & Hrun).
      { unfold ExperimentList.size. intros Hi. destruct (decide (0 < step a)); lia. }
      pose proof (slice_loop_mono self a fuel (fuel + S (length self))
                    _ _ _ ltac:(lia) Ho) as Hbig.
      rewrite Hrun in Hbig by lia. by injection Hbig as <-.
  - by apply Forall_forall.
Qed.

End AnySlice.

(** A slice adapted to bounds far out of range, going backward. *)
Lemma slice_is_made_of_the_list_witness :
  ∃ result,
    experiment_list_getitem_slice
      (λ _ _, {| start := 1; stop := -7; step := -5 |})
      4 three_experiments example_slice = Some (Returned result)
    ∧ (length result ≤ 3)%nat
    ∧ ∀ e, e ∈ result → e ∈ three_experiments.
Proof.
  destruct (slice_is_made_of_the_list
              (λ _ _, {| start := 1; stop := -7; step := -5 |})
              three_experiments example_slice)
    with (fuel := 4%nat)
         (o := Returned [experiment_with beam_1' detector_1 PyNone])
    as (result & Ho & Hlen & Hin).
  - vm_compute. split; [discriminate | reflexivity].
  - reflexivity.
  - reflexivity.
  - injection Ho as <-. eexists. split; [reflexivity |]. split; [exact Hlen | exact Hin].
Defined.

(** ** Construction from a Python sequence *)

(** The loop of [make_experiment_list] stops with [TypeError] at the
    first item that is not an Experiment. *)
Lemma constructor_loop_rejects (l : list pyvalue) (items : pyvalue) :
  (∀ i, py_getitem items (N.of_nat i)
        = match l !! i with Some v => Returned v | None => Raised IndexError end) →
  ∀ count i acc,
    (i + count ≤ length l)%nat →
    (∃ j v, (i ≤ j < i + count)%nat ∧ l !! j = Some v ∧ ∀ e, v ≠ PyExperiment e) →
    fst (for_range count (N.of_nat i)
           (λ i, item ← lift (py_getitem items i);
                 e ← lift (extract_Experiment item);
                 ExperimentList.append e) acc)
    = Raised TypeError.
Proof.
  intros Hitems count. induction count as [|count IH]; intros i acc Hle Hbad.
  - destruct Hbad as (j & _ & Hj & _). lia.
  - destruct (lookup_lt_is_Some_2 l i) as [v0 Hv0]; [lia |].
    simpl. unfold mbind, M_bind, bind, lift. rewrite Hitems, Hv0.
    destruct v0 as [o|e|vs|vs]; try done.
    simpl. rewrite <- Nat2N.inj_succ.
    apply (IH (S i) (acc ++ [e])); [lia |].
    destruct Hbad as (j & v & Hj & Hv & Hnot).
    exists j, v. split; [| done].
    destruct (decide (j = i)) as [->|Hne]; [| lia].
    rewrite Hv0 in Hv. injection Hv as <-. by destruct (Hnot e).
Qed.

Lemma all_experiments_or_not (l : list pyvalue) :
  (∃ es, l = PyExperiment <$> es)
  ∨ (∃ v, v ∈ l ∧ ∀ e, v ≠ PyExperiment e).
Proof.
  induction l as [|v l [[es ->]|(w & Hw & Hnot)]].
  - left. by exists [].
  - destruct v as [o|e|vs|vs].
    2: { left. by exists (e :: es). }
    all: right; eexists; split; [apply list_elem_of_here | done].
  - right. exists w. split; [by apply list_elem_of_further | done].
Qed.

Lemma make_experiment_list_rejects (l : list pyvalue) (v : pyvalue) :
  v ∈ l → (∀ e, v ≠ PyExperiment e) →
  make_experiment_list (PyList l) = Raised TypeError.
Proof.
  intros [j Hj]%list_elem_of_lookup Hnot.
  unfold make_experiment_list. unfold mbind at 1. unfold M_bind, bind, lift.
  simpl len. cbv iota beta. rewrite Nat2N.id.
  pose proof (constructor_loop_rejects l (PyList l)
                ltac:(by intros i; simpl; rewrite Nat2N.id)
                (length l) 0%nat [] ltac:(lia)) as Hloop.
  simpl N.of_nat in Hloop.
  destruct (for_range _ _ _ _) as [o experiment]. simpl in Hloop.
  rewrite Hloop; [done |].
  exists j, v. split; [| done]. apply lookup_lt_Some in Hj. lia.
Qed.

(** The constructor takes a list or a tuple alike; it returns the
    Experiments in order when every item is one, and raises
    [TypeError], returning no part of the list, as soon as one item is
    not. *)
Theorem constructor_is_all_or_nothing (l : list pyvalue) :
  (∀ es, l = PyExperiment <$> es → make_experiment_list (PyList l) = Returned es)
  ∧ (∀ v, v ∈ l → (∀ e, v ≠ PyExperiment e) →
       make_experiment_list (PyList l) = Raised TypeError)
  ∧ make_experiment_list (PyTuple l) = make_experiment_list (PyList l).
Proof.
  split; [| split].
  - intros es ->. apply make_experiment_list_copies.
  - apply make_experiment_list_rejects.
  - reflexivity.
Qed.

Lemma constructor_is_all_or_nothing_witness :
  make_experiment_list (PyList (PyExperiment <$> three_experiments))
  = Returned three_experiments
  ∧ make_experiment_list
      (PyList [PyExperiment (experiment_with beam_1 detector_1 PyNone);
               PyObject imageset_1;
               PyExperiment (experiment_with beam_2 detector_2 PyNone)])
    = Raised TypeError.
Proof.
  split.
  - apply (constructor_is_all_or_nothing (PyExperiment <$> three_experiments)).
    reflexivity.
  - apply (constructor_is_all_or_nothing
             [PyExperiment (experiment_with beam_1 detector_1 PyNone);
              PyObject imageset_1;
              PyExperiment (experiment_with beam_2 detector_2 PyNone)])
      with (v := PyObject imageset_1).
    + apply list_elem_of_further, list_elem_of_here.
    + discriminate.
Defined.

(** Whatever list the constructor accepts is a list of Experiments, as
    many as the new [ExperimentList] holds, and it is the list that
    [getinitargs] gives back for the object constructed. *)
Theorem constructed_list_pickles_back (l : list pyvalue) (obj : ExperimentList.t) :
  make_experiment_list (PyList l) = Returned obj →
  l = PyExperiment <$> obj
  ∧ ExperimentList.size obj = N.of_nat (length l)
  ∧ ExperimentListPickleSuite.getinitargs obj = Returned (PyTuple [PyList l]).
Proof.
  intros Hmade.
  destruct (all_experiments_or_not l) as [[es ->]|(v & Hv & Hnot)].
  - rewrite make_experiment_list_copies in Hmade. injection Hmade as ->.
    split; [done |]. split.
    + unfold ExperimentList.size. by rewrite length_fmap.
    + apply getinitargs_lists_elements.
  - rewrite (make_experiment_list_rejects l v Hv Hnot) in Hmade. discriminate.
Qed.

Lemma constructed_list_pickles_back_witness :
  ExperimentListPickleSuite.getinitargs three_experiments
  = Returned (PyTuple [PyList (PyExperiment <$> three_experiments)]).
Proof.
  apply (constructed_list_pickles_back
           (PyExperiment <$> three_experiments) three_experiments).
  reflexivity.
Defined.

(** ** The slicing loop against the iteration over the integers *)

(** Over the integers an iteration that has something to visit and does
    not step forward has no end. *)
Lemma visits_needs_a_step_forward (stop step size i : Z) (l : list Z) :
  step ≤ 0 → visits stop step size i l → i < stop → i < size → False.
Proof.
  intros Hstep Hv. induction Hv as [i Hend|i l H1 H2 Hv IH]; intros Hi1 Hi2.
  - apply Hend. by split.
  - apply IH; lia.
Qed.

Section WordingOfSlices.
Variable adapt : slice → N → adapted_slice.

(** Once inside, the loop returns at least the element it read. *)
Lemma slice_loop_inside_is_not_empty (self : ExperimentList.t)
    (a : adapted_slice) (i : N) (fuel : nat) :
  ((i <? to_size_t (stop a))%N && (i <? ExperimentList.size self)%N) = true →
  slice_loop fuel self a i [] ≠ Some (Returned []).
Proof.
  intros Hguard Hrun. destruct fuel as [|fuel]; [done |].
  simpl in Hrun. rewrite Hguard in Hrun.
  apply andb_true_iff in Hguard as [_ Hi%N.ltb_lt].
  unfold ExperimentList.subscript, ExperimentList.size in *.
  destruct (lookup_lt_is_Some_2 self (N.to_nat i)) as [e He]; [lia |].
  rewrite He in Hrun.
  apply slice_loop_reads_self in Hrun as (elems & Heq & _).
  simpl in Heq. discriminate.
Qed.

Lemma slice_as_worded_if (self : ExperimentList.t) (s : slice) :
  is_long (start (adapt s (ExperimentList.size self))) →
  is_long (stop (adapt s (ExperimentList.size self))) →
  is_long (step (adapt s (ExperimentList.size self))) →
  Z.of_N (ExperimentList.size self) < 2 ^ 63 →
  reads_as_integers (adapt s (ExperimentList.size self)) (ExperimentList.size self) →
  slice_as_worded adapt self s.
Proof.
  unfold slice_as_worded, experiment_list_getitem_slice.
  set (a := adapt s (ExperimentList.size self)).
  intros Hstart Hstop Hstep Hsize [(Hs0 & Hup & Hlt & Hin)|[Hz Hm]].
  - assert (Hfw : forward a (ExperimentList.size self)).
    { unfold forward. repeat split; try done; unfold is_long in *; lia. }
    assert (Hs : Z.of_N (to_size_t (start a)) = start a)
      by (apply to_size_t_small; unfold is_long in Hstart; lia).
    destruct (slice_loop_forward self a Hfw
                (N.to_nat (ExperimentList.size self)) (to_size_t (start a)))
      as (visited & result & Hv & Hf & Hrun); [lia |].
    exists visited, result. rewrite Hs in Hv.
    split; [done |]. split; [done |].
    exists (S (length visited)). intros fuel Hfuel. rewrite Hrun by lia. done.
  - exists [], []. split; [by apply visits_end |]. split; [constructor |].
    exists 1%nat. intros [|fuel] Hfuel; [lia |]. simpl.
    destruct (_ && _) eqn:Hguard; [| done].
    exfalso. apply Hm. apply andb_true_iff in Hguard as [H1 H2].
    split; by apply N.ltb_lt.
Qed.

Lemma slice_as_worded_only_if (self : ExperimentList.t) (s : slice) :
  slice_as_worded adapt self s →
  reads_as_integers (adapt s (ExperimentList.size self)) (ExperimentList.size self).
Proof.
  unfold slice_as_worded, reads_as_integers, experiment_list_getitem_slice.
  set (a := adapt s (ExperimentList.size self)).
  intros (visited & result & Hv & Hf & enough & Hrun).
  destruct (decide (start a < stop a ∧ start a < Z.of_N (ExperimentList.size self)))
    as [[Hlt Hin]|Hz].
  - left.
    assert (0 < step a).
    { destruct (decide (0 < step a)); [done |]. exfalso.
      eapply visits_needs_a_step_forward; [| exact Hv | done | done]. lia. }
    inversion Hv as [i Hend|i l _ _ _]; subst; [destruct Hend; by split |].
    inversion Hf as [|z e visited' result' [Hz0 _] _]; subst.
    by repeat split.
  - right. split; [done |]. intros [H1 H2].
    inversion Hv as [i Hend|i l Hlt Hin _]; subst; [| destruct Hz; by split].
    inversion Hf; subst.
    apply (slice_loop_inside_is_not_empty self a (to_size_t (start a)) enough).
    + apply andb_true_iff. split; by apply N.ltb_lt.
    + by apply Hrun.
Qed.

(** C4, amended: whatever the adapted bounds, [get_slice] raises
    nothing; with a step that is not zero it returns a list, however
    far out of range the bounds are; and the list returned is that of
    the Experiments at the positions [i = start, start+step, ...]
    visited while [i < stop] and [i < size], in that order, exactly
    when the iteration goes forward from a start that is not negative
    and is below [stop] and the size, or when there is nothing to
    visit, over the integers and as the loop reads the bounds. *)
Theorem getitem_slice_iterates (self : ExperimentList.t) (s : slice) :
  (∀ fuel o, experiment_list_getitem_slice adapt fuel self s = Some o →
     ∃ result, o = Returned result)
  ∧ (is_long (step (adapt s (ExperimentList.size self))) →
     step (adapt s (ExperimentList.size self)) ≠ 0 →
     Z.of_N (ExperimentList.size self) < 2 ^ 63 →
     ∃ result, ∀ fuel, (length self < fuel)%nat →
       experiment_list_getitem_slice adapt fuel self s = Some (Returned result))
  ∧ (is_long (start (adapt s (ExperimentList.size self))) →
     is_long (stop (adapt s (ExperimentList.size self))) →
     is_long (step (adapt s (ExperimentList.size self))) →
     Z.of_N (ExperimentList.size self) < 2 ^ 63 →
     (slice_as_worded adapt self s
      ↔ reads_as_integers (adapt s (ExperimentList.size self))
          (ExperimentList.size self))).
Proof.
  split; [| split].
  - unfold experiment_list_getitem_slice. intros fuel o. apply slice_loop_returns.
  - unfold experiment_list_getitem_slice.
    set (a := adapt s (ExperimentList.size self)). intros Hstep Hnz Hsize.
    destruct (slice_loop_ends self a Hstep Hnz Hsize (length self)
                (to_size_t (start a))) as (elems & Hrun).
    + unfold ExperimentList.size. intros Hi. destruct (decide (0 < step a)); lia.
    + exists elems. intros fuel Hfuel. by rewrite Hrun.
  - intros Hstart Hstop Hstep Hsize. split.
    + by apply slice_as_worded_only_if.
    + by apply slice_as_worded_if.
Qed.

End WordingOfSlices.

(** C4 fails as stated.  On three Experiments, bounds adapted to
    [(2, -1, -1)] make the loop return all three, last first, where
    the iteration over the integers visits nothing; so do bounds
    adapted to [(0, -1, 1)], first to last; and with bounds adapted to
    [(0, 1, 0)] the iteration has no end and the call does not
    return. *)
Lemma slice_wraps_where_integers_stop :
  (experiment_list_getitem_slice
     (λ _ _, {| start := 2; stop := -1; step := -1 |})
     4 three_experiments example_slice
   = Some (Returned (reverse three_experiments))
   ∧ ¬ slice_as_worded (λ _ _, {| start := 2; stop := -1; step := -1 |})
         three_experiments example_slice)
  ∧ (experiment_list_getitem_slice
       (λ _ _, {| start := 0; stop := -1; step := 1 |})
       4 three_experiments example_slice
     = Some (Returned three_experiments)
     ∧ ¬ slice_as_worded (λ _ _, {| start := 0; stop := -1; step := 1 |})
           three_experiments example_slice)
  ∧ ¬ slice_as_worded (λ _ _, {| start := 0; stop := 1; step := 0 |})
        three_experiments example_slice.
Proof.
  split; [split; [reflexivity |] | split; [split; [reflexivity |] |]].
  all: intros Hworded.
  all: apply slice_as_worded_only_if in Hworded.
  all: destruct Hworded as [(H0 & Hstep & Hlt & Hin)|[Hz Hm]].
  - vm_compute in Hstep. discriminate.
  - apply Hm. vm_compute. split; reflexivity.
  - vm_compute in Hlt. discriminate.
  - apply Hm. vm_compute. split; reflexivity.
  - vm_compute in Hstep. discriminate.
  - apply Hz. vm_compute. split; reflexivity.
Qed.

(** The slice [0:5:2] of three Experiments: forward from 0, with the
    [stop] cut at the size, hence as worded. *)
Lemma getitem_slice_iterates_witness :
  slice_as_worded example_adapt three_experiments example_slice
  ∧ ∃ result, ∀ fuel, (3 < fuel)%nat →
      experiment_list_getitem_slice example_adapt fuel three_experiments
        example_slice = Some (Returned result).
Proof.
  destruct (getitem_slice_iterates example_adapt three_experiments example_slice)
    as (_ & Hends & Hworded).
  split.
  - apply Hworded.
    + vm_compute. split; [discriminate | reflexivity].
    + vm_compute. split; [discriminate | reflexivity].
    + vm_compute. split; [discriminate | reflexivity].
    + reflexivity.
    + left. vm_compute. repeat split; discriminate.
  - apply Hends.
    + vm_compute. split; [discriminate | reflexivity].
    + vm_compute. discriminate.
    + reflexivity.
Defined.

(** ** [is_consistent] as a scan of the list *)


Section Grouping.
Variable key : nat.



End Grouping.


